(** * Data Preview: record flattening, format dispatch and companion files

    A shallow embedding of the data-loading code of the Data Preview
    extension ([src/data.preview.ts]) and of its Avro text-document
    provider ([src/data.providers/avro.data.provider.ts]).

    JavaScript objects that the code uses as field-name -> value mappings
    are finite maps ([gmap string value]); where the code iterates over
    [Object.keys] the object is given by its own enumerable properties in
    key order.  Methods of [DataPreview] that read or assign [this], touch
    the file system or post to the webview are computations in a small
    state-and-exception monad.  Debug logging has no effect that the code
    can observe and is left out. *)

From stdpp Require Import gmap strings list fin_maps pretty.
From Stdlib Require Import ZArith Ascii String.

#[local] Open Scope string_scope.
#[local] Open Scope list_scope.
#[local] Set Warnings "-register-all".

(** ** JavaScript strings *)

Module Js.
#[local] Open Scope Z_scope.

(** [s.indexOf(searchString)]: first position, [-1] when absent. *)
Definition indexOf (s searchString : string) : Z :=
  match String.index 0 searchString s with
  | Some n => Z.of_nat n
  | None => -1
  end.

(** Last position at which [searchString] starts in [s], if any. *)
Fixpoint lastOccurrence (searchString s : string) : option nat :=
  match s with
  | EmptyString => if String.prefix searchString s then Some 0%nat else None
  | String _ s' =>
      match lastOccurrence searchString s' with
      | Some n => Some (S n)
      | None => if String.prefix searchString s then Some 0%nat else None
      end
  end.

(** [s.lastIndexOf(searchString)]: last position, [-1] when absent. *)
Definition lastIndexOf (s searchString : string) : Z :=
  match lastOccurrence searchString s with
  | Some n => Z.of_nat n
  | None => -1
  end.

(** [s.substr(start)]: a negative [start] counts from the end of [s]
    (and is clamped at [0]); the result runs to the end of [s]. *)
Definition substr (s : string) (start : Z) : string :=
  let len := Z.of_nat (String.length s) in
  let from := if start <? 0 then Z.max (len + start) 0 else Z.min start len in
  String.substring (Z.to_nat from) (Z.to_nat (len - from)) s.

(** [s.substring(0, stop)] for [0 <= stop]. *)
Definition substring0 (s : string) (stop : Z) : string :=
  String.substring 0 (Z.to_nat stop) s.

(** [s.replace(pattern, replacement)] with a string [pattern]: only the
    first occurrence is replaced; [s] is returned when there is none.
    The replacement text is taken literally (no [$] patterns). *)
Definition replace (s pattern replacement : string) : string :=
  match String.index 0 pattern s with
  | Some n =>
      (String.substring 0 n s ++ replacement
         ++ String.substring (n + String.length pattern)
              (String.length s - (n + String.length pattern)) s)%string
  | None => s
  end.

Definition isLineTerminator (c : ascii) : bool :=
  (Ascii.eqb c "010" || Ascii.eqb c "013")%char.

(** [s.replace(RegExp('\.json$'), '')].  Inside a string literal the
    escape [\.] is just [.], so the pattern is [.json$]: any character
    other than a line terminator, followed by [json] at the end. *)
Definition stripJsonSuffix (s : string) : string :=
  let n := String.length s in
  if (5 <=? n)%nat then
    match String.get (n - 5) s with
    | Some c =>
        if negb (isLineTerminator c) && String.eqb (String.substring (n - 4) 4 s) "json"
        then String.substring 0 (n - 5) s
        else s
    | None => s
    end
  else s.

Definition lowerChar (c : ascii) : ascii :=
  let n := nat_of_ascii c in
  if ((65 <=? n) && (n <=? 90))%nat then ascii_of_nat (n + 32) else c.

(** [s.toLowerCase()] on ASCII text. *)
Fixpoint toLowerCase (s : string) : string :=
  match s with
  | EmptyString => EmptyString
  | String c s' => String (lowerChar c) (toLowerCase s')
  end.

End Js.

(** ** JavaScript values handled by the preview *)

(** Numbers are integers here: the code stores, copies and prints
    numbers but never computes with one. *)

Inductive value : Type :=
  | VUndefined
  | VNull
  | VBool (b : bool)
  | VNumber (n : Z)
  | VString (s : string)
  | VObject (props : list (string * value))  (* own properties, in [Object.keys] order *)
  | VArray (elems : list value).

(** The [typeof] operator. *)
Definition typeof (v : value) : string :=
  match v with
  | VUndefined => "undefined"
  | VNull | VObject _ | VArray _ => "object"
  | VBool _ => "boolean"
  | VNumber _ => "number"
  | VString _ => "string"
  end.

Definition isNull (v : value) : bool :=
  match v with VNull => true | _ => false end.

(** The test [typeof obj[key] === 'object' && obj[key] !== null]. *)
Definition isNestedObject (v : value) : bool :=
  String.eqb (typeof v) "object" && negb (isNull v).

(** Characters of a string primitive, as the one-character strings that
    indexing yields. *)
Fixpoint characters (s : string) : list value :=
  match s with
  | EmptyString => []
  | String c s' => VString (String c EmptyString) :: characters s'
  end.

(** Array elements paired with their index keys ["0"], ["1"], ... counted
    from [i]. *)
Fixpoint indexedFrom (i : nat) (elems : list value) : list (string * value) :=
  match elems with
  | [] => []
  | v :: elems' => (pretty i, v) :: indexedFrom (S i) elems'
  end.

(** [Object.keys(obj)] paired with [obj[key]], for every value on which
    [Object.keys] does not throw. *)
Definition ownProperties (obj : value) : list (string * value) :=
  match obj with
  | VObject props => props
  | VArray elems => indexedFrom 0 elems
  | VString s => indexedFrom 0 (characters s)
  | _ => []
  end.

(** [Object.keys(null)] and [Object.keys(undefined)] throw a TypeError. *)
Definition keysThrow (obj : value) : bool :=
  match obj with VUndefined | VNull => true | _ => false end.

(** ** The record normalizer *)

(** [flattenObject] (data.preview.ts, 544-554).  [flatObject] starts empty;
    for each key a nested object is flattened and [Object.assign]ed over
    [flatObject], any other value is stored under its key.  The only call
    of [Object.keys] that can throw is the outermost one ([keysThrow]);
    the recursive call is guarded by [isNestedObject]. *)
Fixpoint flattenObject (obj : value) : gmap string value :=
  match obj with
  | VObject props =>
      foldl (fun flatObject '(key, v) =>
               if isNestedObject v then flattenObject v ∪ flatObject
               else <[key := v]> flatObject) ∅ props
  | VArray elems =>
      (foldl (fun '(i, flatObject) v =>
                (S i, if isNestedObject v then flattenObject v ∪ flatObject
                      else <[pretty i := v]> flatObject)) (0%nat, ∅) elems).2
  | VString s =>
      foldl (fun flatObject '(key, v) => <[key := v]> flatObject) ∅
        (indexedFrom 0 (characters s))
  | _ => ∅
  end.

(** The body of the [forEach] callback, and the loop over a list of
    properties starting from a given [flatObject]. *)
Definition flattenStep (flatObject : gmap string value) (kv : string * value)
  : gmap string value :=
  if isNestedObject kv.2 then flattenObject kv.2 ∪ flatObject
  else <[kv.1 := kv.2]> flatObject.

Definition flattenProperties (props : list (string * value))
  (flatObject : gmap string value) : gmap string value :=
  foldl flattenStep flatObject props.

(** The scalar leaf fields of a record in depth-first order: a field whose
    value is a nested object contributes the leaves of that object, any
    other field contributes itself. *)
Fixpoint leafFields (obj : value) : list (string * value) :=
  match obj with
  | VObject props =>
      flat_map (fun '(key, v) =>
                  if isNestedObject v then leafFields v else [(key, v)]) props
  | VArray elems =>
      (foldl (fun '(i, acc) v =>
                (S i, acc ++ (if isNestedObject v then leafFields v
                              else [(pretty i, v)]))) (0%nat, []) elems).2
  | VString s => indexedFrom 0 (characters s)
  | _ => []
  end.

Definition leavesOfField (kv : string * value) : list (string * value) :=
  if isNestedObject kv.2 then leafFields kv.2 else [kv].

(** Union of a sequence of fields in which a later field overwrites an
    earlier one of the same name. *)
Definition lastWins (fields : list (string * value)) : gmap string value :=
  list_to_map (reverse fields).

(** A record all of whose fields are scalar. *)
Definition allScalar (props : list (string * value)) : Prop :=
  Forall (fun kv => isNestedObject kv.2 = false) props.

(** ** Collaborators outside the two source files *)

(** A [vscode.Uri]: its [fsPath], its [path] and its [toString()]. *)
Record Uri := {
  fsPath : string;
  path : string;
  uriString : string;
}.

(** A worksheet, seen through [xlsx.utils.sheet_to_json]: the row objects
    it converts to. *)
Record WorkSheet := { rowObjects : list value }.

(** [xlsx.WorkBook]: sheet names in file order and the sheets by name. *)
Record WorkBook := {
  SheetNames : list string;
  Sheets : gmap string WorkSheet;
}.

(** [xlsx.utils.sheet_to_json(worksheet)]; an undefined worksheet (no
    sheet of the requested name) yields no rows. *)
Definition sheet_to_json (worksheet : option WorkSheet) : list value :=
  match worksheet with
  | Some sheet => rowObjects sheet
  | None => []
  end.

Record ArrowField := {
  field_name : string;
  field_type : string;            (* [field.type.toString()] *)
}.

(** An apache-arrow [Table]: row count, schema fields, the cell
    [getColumnAt(index).get(i)] and the schema as [JSON.stringify] sees it. *)
Record ArrowTable := {
  table_length : nat;
  table_fields : list ArrowField;
  table_cell : nat → nat → value;
  table_schema : value;
}.

(** A saved view configuration, as [JSON.parse] returns it; [None] is a
    property that is absent ([undefined]). *)
Record ViewConfig := {
  dataFileName : option string;
  config : value;
  dataTable : option string;
}.

Inductive WorkBookType := BinaryWorkBook | FileWorkBook.

(** Node's [path] module, [JSON], the xlsx and apache-arrow readers and
    the [dataTypes] table of [./config]. A reader that throws is [None]. *)
Record Runtime := {
  path_basename : string → string;
  path_dirname : string → string;
  path_join : string → string → string;
  JSON_stringify : value → string;
  JSON_parse : string → option ViewConfig;
  xlsx_read : WorkBookType → string → option WorkBook;
  Table_from : string → option ArrowTable;
  dataTypes : string → value;
}.

(** ** The data preview and its surroundings *)

Inductive Error :=
  | TypeError (message : string)
  | SyntaxError (message : string)
  | IOError (message : string)
  | ParseError (message : string).

(** What [getFileData] hands to [loadData]. *)
Inductive Data :=
  | DataNull
  | DataUndefined
  | DataText (text : string)
  | DataRows (rows : list value)
  | DataFlatRows (rows : list (gmap string value)).

(** [data.length] where [data] has one. *)
Definition dataLength (data : Data) : option nat :=
  match data with
  | DataNull | DataUndefined => None
  | DataText text => Some (String.length text)
  | DataRows rows => Some (List.length rows)
  | DataFlatRows rows => Some (List.length rows)
  end.

Record RefreshMessage := {
  msg_fileName : string;
  msg_uri : string;
  msg_config : value;
  msg_schema : value;
  msg_tableList : list string;
  msg_table : string;
  msg_data : Data;
}.

(** Messages posted to the webview. *)
Inductive Message :=
  | RefreshCommand (message : RefreshMessage)
  | ErrorReport (error : Error).

(** The fields of [DataPreview] that the data-loading code reads or
    assigns. *)
Record DataPreview := {
  _uri : Uri;
  _fileName : string;
  _fileExtension : string;
  _schema : value;
  _config : value;
  _tableList : list string;
  _dataTable : string;
}.

(** The preview together with everything its methods act on: the file
    system (path -> content), the messages posted to the webview, the
    messages shown to the user and the Avro file decoders created. *)
Record State := {
  this : DataPreview;
  files : gmap string string;
  posted : list Message;
  errorMessages : list string;
  informationMessages : list string;
  fileDecoders : list string;
}.

Definition withThis (f : DataPreview → DataPreview) (st : State) : State :=
  {| this := f (this st); files := files st; posted := posted st;
     errorMessages := errorMessages st;
     informationMessages := informationMessages st;
     fileDecoders := fileDecoders st |}.

Definition withFiles (f : gmap string string → gmap string string) (st : State) : State :=
  {| this := this st; files := f (files st); posted := posted st;
     errorMessages := errorMessages st;
     informationMessages := informationMessages st;
     fileDecoders := fileDecoders st |}.

Definition set_schema (v : value) (p : DataPreview) : DataPreview :=
  {| _uri := _uri p; _fileName := _fileName p; _fileExtension := _fileExtension p;
     _schema := v; _config := _config p; _tableList := _tableList p;
     _dataTable := _dataTable p |}.

Definition set_config (v : value) (p : DataPreview) : DataPreview :=
  {| _uri := _uri p; _fileName := _fileName p; _fileExtension := _fileExtension p;
     _schema := _schema p; _config := v; _tableList := _tableList p;
     _dataTable := _dataTable p |}.

Definition set_tableList (l : list string) (p : DataPreview) : DataPreview :=
  {| _uri := _uri p; _fileName := _fileName p; _fileExtension := _fileExtension p;
     _schema := _schema p; _config := _config p; _tableList := l;
     _dataTable := _dataTable p |}.

Definition set_dataTable (s : string) (p : DataPreview) : DataPreview :=
  {| _uri := _uri p; _fileName := _fileName p; _fileExtension := _fileExtension p;
     _schema := _schema p; _config := _config p; _tableList := _tableList p;
     _dataTable := s |}.

(** *** Computations: state passing with exceptions *)

Inductive Completion (A : Type) :=
  | Normal (result : A)
  | Throw (error : Error).
Arguments Normal {A} result.
Arguments Throw {A} error.

Definition M (A : Type) : Type := State → Completion A * State.

Definition ret {A} (a : A) : M A := fun st => (Normal a, st).

Definition bind {A B} (m : M A) (k : A → M B) : M B :=
  fun st =>
    match m st with
    | (Normal a, st') => k a st'
    | (Throw e, st') => (Throw e, st')
    end.

Notation "'do' x <- m ; k" := (bind m (fun x => k))
  (at level 10, x name, m at level 100, k at level 200).
Notation "m ;; k" := (bind m (fun _ => k))
  (at level 100, k at level 200, right associativity).

Definition throw {A} (e : Error) : M A := fun st => (Throw e, st).

(** [try { body } catch (error) { handler }]. *)
Definition tryCatch {A} (body : M A) (handler : Error → M A) : M A :=
  fun st =>
    match body st with
    | (Normal a, st') => (Normal a, st')
    | (Throw e, st') => handler e st'
    end.

Definition getThis : M DataPreview := fun st => (Normal (this st), st).

Definition assignThis (f : DataPreview → DataPreview) : M unit :=
  fun st => (Normal tt, withThis f st).

(** [fs.existsSync]. *)
Definition existsSync (filePath : string) : M bool :=
  fun st => (Normal (bool_decide (is_Some (files st !! filePath))), st).

(** [fs.readFileSync(filePath, 'utf8')]. *)
Definition readFileSync (filePath : string) : M string :=
  fun st =>
    match files st !! filePath with
    | Some content => (Normal content, st)
    | None => (Throw (IOError ("ENOENT: no such file or directory, open '" ++ filePath ++ "'")), st)
    end.

(** [fs.createWriteStream(filePath)], [write(content)], [end()].  The
    stream opens the file after the running call has returned and
    writes it then; [files] shows the file as it is once the stream has
    finished: created or truncated, holding [content].  The open is taken
    to succeed: a failed open is an ['error'] event of the stream, which
    no handler takes, not an exception for the [catch] around the call.
    A test of the same path later in the same call would see the file
    too early here; the code tests no path that it has written in the
    same call as long as the two companion paths differ. *)
Definition writeStream (filePath content : string) : M unit :=
  fun st => (Normal tt, withFiles <[filePath := content]> st).

Definition postMessage (message : Message) : M unit :=
  fun st =>
    (Normal tt,
     {| this := this st; files := files st; posted := posted st ++ [message];
        errorMessages := errorMessages st;
        informationMessages := informationMessages st;
        fileDecoders := fileDecoders st |}).

Definition showErrorMessage (message : string) : M unit :=
  fun st =>
    (Normal tt,
     {| this := this st; files := files st; posted := posted st;
        errorMessages := errorMessages st ++ [message];
        informationMessages := informationMessages st;
        fileDecoders := fileDecoders st |}).

Definition showInformationMessage (message : string) : M unit :=
  fun st =>
    (Normal tt,
     {| this := this st; files := files st; posted := posted st;
        errorMessages := errorMessages st;
        informationMessages := informationMessages st ++ [message];
        fileDecoders := fileDecoders st |}).

(** [avro.createFileDecoder(dataFilePath)]: the decoder reads the file
    later, its events arrive after the current call has returned. *)
Definition createFileDecoder (dataFilePath : string) : M unit :=
  fun st =>
    (Normal tt,
     {| this := this st; files := files st; posted := posted st;
        errorMessages := errorMessages st;
        informationMessages := informationMessages st;
        fileDecoders := fileDecoders st ++ [dataFilePath] |}).

(** *** The format detector *)

Inductive Decoder :=
  | Passthrough
  | BinarySpreadsheet
  | TextSpreadsheet
  | Columnar
  | Avro
  | ParquetPending.

Definition oneOf (s : string) (labels : list string) : bool :=
  existsb (String.eqb s) labels.

(** The [case] labels of the [switch (this._fileExtension)] in
    [getFileData] (data.preview.ts, 350-383), compared with [===]. *)
Definition decoderFor (fileExtension : string) : option Decoder :=
  if oneOf fileExtension [".csv"; ".tsv"; ".txt"; ".tab"; ".json"] then Some Passthrough
  else if oneOf fileExtension [".xls"; ".xlsb"; ".xlsx"; ".xlsm"; ".slk"; ".ods"; ".prn"]
  then Some BinarySpreadsheet
  else if oneOf fileExtension [".dif"; ".xml"; ".html"] then Some TextSpreadsheet
  else if oneOf fileExtension [".arrow"] then Some Columnar
  else if oneOf fileExtension [".avro"] then Some Avro
  else if oneOf fileExtension [".parquet"] then Some ParquetPending
  else None.

(** The extension table of the specification (section 4.1). *)
Definition supportedExtensions : list (string * Decoder) :=
  [ (".csv", Passthrough); (".tsv", Passthrough); (".txt", Passthrough);
    (".tab", Passthrough); (".json", Passthrough);
    (".xls", BinarySpreadsheet); (".xlsb", BinarySpreadsheet);
    (".xlsx", BinarySpreadsheet); (".xlsm", BinarySpreadsheet);
    (".slk", BinarySpreadsheet); (".ods", BinarySpreadsheet);
    (".prn", BinarySpreadsheet);
    (".dif", TextSpreadsheet); (".xml", TextSpreadsheet); (".html", TextSpreadsheet);
    (".arrow", Columnar);
    (".avro", Avro) ].

(** *** Assignment to a property of a plain object *)

Definition digitOf (c : ascii) : option Z :=
  let n := Z.of_nat (nat_of_ascii c) in
  if ((48 <=? n) && (n <=? 57))%Z then Some (n - 48)%Z else None.

Fixpoint decimalValue (s : string) (acc : Z) : option Z :=
  match s with
  | EmptyString => Some acc
  | String c s' =>
      match digitOf c with
      | Some d => decimalValue s' (acc * 10 + d)%Z
      | None => None
      end
  end.

(** The array index that a property key is, if it is one: the canonical
    decimal text (no leading zero) of an integer from [0] to [2^32 - 2]. *)
Definition arrayIndex (key : string) : option Z :=
  match key with
  | EmptyString => None
  | String c rest =>
      if Ascii.eqb c "0" && negb (String.eqb rest "") then None
      else
        match decimalValue key 0 with
        | Some n => if (n <? 4294967295)%Z then Some n else None
        | None => None
        end
  end.

(** The order in which an object lists its own keys: array indices
    first, in ascending order, then the other keys as they were created. *)
Definition keyBefore (key k : string) : bool :=
  match arrayIndex key, arrayIndex k with
  | Some n, Some m => (n <? m)%Z
  | Some _, None => true
  | None, _ => false
  end.

Definition hasProperty (key : string) (props : list (string * value)) : bool :=
  existsb (fun p => String.eqb p.1 key) props.

(** An existing property keeps its place. *)
Fixpoint replaceProperty (key : string) (v : value) (props : list (string * value))
  : list (string * value) :=
  match props with
  | [] => []
  | (k, w) :: props' =>
      if String.eqb k key then (k, v) :: props'
      else (k, w) :: replaceProperty key v props'
  end.

(** A new property goes before the first key that is listed after it. *)
Fixpoint insertProperty (key : string) (v : value) (props : list (string * value))
  : list (string * value) :=
  match props with
  | [] => [(key, v)]
  | (k, w) :: props' =>
      if keyBefore key k then (key, v) :: props
      else (k, w) :: insertProperty key v props'
  end.

(** [obj[key] = v] on a plain object, given by its own properties in the
    order of [Object.keys].  An assignment to [__proto__] runs the
    setter of [Object.prototype]: it creates no own property. *)
Definition assignProperty (key : string) (v : value) (props : list (string * value))
  : list (string * value) :=
  if String.eqb key "__proto__" then props
  else if hasProperty key props then replaceProperty key v props
  else insertProperty key v props.

(** The closure variables of the handlers that [getAvroData] registers. *)
Record AvroDecode := {
  dataSchema : value;
  dataRows : list value;
}.

(** Events of an avsc [BlockDecoder]. *)
Inductive AvroEvent :=
  | OnMetadata (type : value)
  | OnData (data : value)
  | OnEnd.

(** The events of one decode, in the order the stream emits them: the
    schema of the container's header, then each record, then the end. *)
Definition avroStream (type : value) (records : list value) : list AvroEvent :=
  OnMetadata type :: map OnData records ++ [OnEnd].

Section Preview.
Context (rt : Runtime).

(** The part of the constructor that the data-loading code depends on
    (data.preview.ts, 104-108). *)
Definition newDataPreview (uri : Uri) (viewConfig : value) : DataPreview :=
  let fileName := path_basename rt (fsPath uri) in
  {| _uri := uri;
     _fileName := fileName;
     _fileExtension := Js.substr fileName (Js.lastIndexOf fileName ".");
     _schema := VUndefined;
     _config := viewConfig;
     _tableList := [];
     _dataTable := "" |}.

(** The message that [loadData] posts (280-289). *)
Definition refreshMessage (self : DataPreview) (data : Data) : Message :=
  RefreshCommand
    {| msg_fileName := _fileName self;
       msg_uri := uriString (_uri self);
       msg_config := _config self;
       msg_schema := _schema self;
       msg_tableList := _tableList self;
       msg_table := _dataTable self;
       msg_data := data |}.

(** [loadData] (273-295).  [data.length] on [null] is a TypeError, and
    the test stands before the [try]. *)
Definition loadData (data : Data) : M unit :=
  match data with
  | DataUndefined => ret tt
  | _ =>
      match dataLength data with
      | None => throw (TypeError "Cannot read property 'length' of null")
      | Some n =>
          if (n <=? 0)%nat then ret tt
          else
            tryCatch
              (do self <- getThis;
               postMessage (refreshMessage self data))
              (fun error => postMessage (ErrorReport error))
      end
  end.

(** [createJsonFile] (580-595). *)
Definition createJsonFile (jsonFilePath : string) (jsonData : value) : M unit :=
  do present <- existsSync jsonFilePath;
  if negb present then
    let jsonString := JSON_stringify rt jsonData in
    tryCatch
      (writeStream jsonFilePath jsonString)
      (fun _ => showErrorMessage ("Failed to save file: " ++ jsonFilePath))
  else ret tt.

(** [getExcelData] (420-451). *)
Definition getExcelData (workbook : WorkBook) : M (list value) :=
  match SheetNames workbook with
  | [] => ret []
  | firstSheet :: _ =>
      (if (1 <? List.length (SheetNames workbook))%nat
       then assignThis (set_tableList (SheetNames workbook))
       else ret tt) ;;
      do self <- getThis;
      let sheetName :=
        if (0 <? String.length (_dataTable self))%nat then _dataTable self
        else firstSheet in
      let worksheet := Sheets workbook !! sheetName in
      let dataRows := sheet_to_json worksheet in
      let jsonFilePath := Js.replace (fsPath (_uri self)) (_fileExtension self) ".json" in
      let jsonFilePath :=
        if (0 <? String.length (_dataTable self))%nat
           && (1 <? List.length (_tableList self))%nat
        then Js.replace jsonFilePath ".json" ("-" ++ sheetName ++ ".json")%string
        else jsonFilePath in
      createJsonFile jsonFilePath (VArray dataRows) ;;
      ret dataRows
  end.

(** [xlsx.readFile(dataFilePath, {type, cellDates: true})]. *)
Definition readWorkBook (type : WorkBookType) (dataFilePath : string) : M WorkBook :=
  do bytes <- readFileSync dataFilePath;
  match xlsx_read rt type bytes with
  | Some workbook => ret workbook
  | None => throw (ParseError "xlsx.readFile")
  end.

(** [getBinaryExcelData] (392-399). *)
Definition getBinaryExcelData (dataFilePath : string) : M (list value) :=
  do workbook <- readWorkBook BinaryWorkBook dataFilePath;
  getExcelData workbook.

(** [getTextExcelData] (406-413). *)
Definition getTextExcelData (dataFilePath : string) : M (list value) :=
  do workbook <- readWorkBook FileWorkBook dataFilePath;
  getExcelData workbook.

(** The row object built for row [i]: [proto[fieldName] = column.get(i)]
    for each field in turn. *)
Definition arrowRow (table : ArrowTable) (i : nat) : value :=
  VObject
    (foldl (fun proto '(index, field) =>
              assignProperty (field_name field) (table_cell table index i) proto)
       [] (imap (fun index field => (index, field)) (table_fields table))).

(** The display type name: the type string up to its first [<], when
    that is not at the start. *)
Definition arrowFieldType (field : ArrowField) : string :=
  let fieldType := field_type field in
  let typesIndex := Js.indexOf fieldType "<" in
  if (0 <? typesIndex)%Z then Js.substring0 fieldType typesIndex else fieldType.

(** [getArrowData] (458-491). *)
Definition getArrowData (dataFilePath : string) : M (list value) :=
  do dataBuffer <- readFileSync dataFilePath;
  match Table_from rt dataBuffer with
  | None => throw (ParseError "Table.from")
  | Some dataTable =>
      let dataRows := map (arrowRow dataTable) (seq 0 (table_length dataTable)) in
      assignThis (set_schema
        (VObject (foldl (fun schema field =>
                           assignProperty (field_name field)
                             (dataTypes rt (arrowFieldType field)) schema)
                    [] (table_fields dataTable)))) ;;
      do self <- getThis;
      createJsonFile (Js.replace (fsPath (_uri self)) (_fileExtension self) ".json")
        (VArray dataRows) ;;
      createJsonFile (Js.replace (fsPath (_uri self)) (_fileExtension self) ".schema.json")
        (table_schema dataTable) ;;
      ret dataRows
  end.

(** [getAvroData] (498-514): the decoder is created and its handlers
    are registered; the array returned is still empty. *)
Definition getAvroData (dataFilePath : string) : M (list value) :=
  createFileDecoder dataFilePath ;;
  ret [].

Definition newAvroDecode : AvroDecode :=
  {| dataSchema := VObject []; dataRows := [] |}.

(** The ['metadata'] handler (502). *)
Definition onMetadata (type : value) (decode : AvroDecode) : AvroDecode :=
  {| dataSchema := type; dataRows := dataRows decode |}.

(** The ['data'] handler (503). *)
Definition onData (data : value) (decode : AvroDecode) : AvroDecode :=
  {| dataSchema := dataSchema decode; dataRows := dataRows decode ++ [data] |}.

(** [dataRows.map(rowObject => this.flattenObject(rowObject))]. *)
Definition flattenRows (rows : list value) : M (list (gmap string value)) :=
  if existsb keysThrow rows
  then throw (TypeError "Cannot convert undefined or null to object")
  else ret (map flattenObject rows).

(** The ['end'] handler (504-512). *)
Definition onEnd (decode : AvroDecode) : M unit :=
  do self <- getThis;
  createJsonFile (Js.replace (fsPath (_uri self)) (_fileExtension self) ".json")
    (VArray (dataRows decode)) ;;
  createJsonFile (Js.replace (fsPath (_uri self)) (_fileExtension self) ".schema.json")
    (dataSchema decode) ;;
  do flatRows <- flattenRows (dataRows decode);
  loadData (DataFlatRows flatRows).

(** The events of a decode, each run by the handler registered for it,
    in the order they arrive.  ['end'] is the last event of a stream; the
    closure variables are not read after it. *)
Fixpoint handleAvroEvents (events : list AvroEvent) (decode : AvroDecode) : M unit :=
  match events with
  | [] => ret tt
  | OnMetadata type :: events' => handleAvroEvents events' (onMetadata type decode)
  | OnData data :: events' => handleAvroEvents events' (onData data decode)
  | OnEnd :: _ => onEnd decode
  end.

(** [getFileData] (339-385). *)
Definition getFileData (filePath : string) : M Data :=
  do self <- getThis;
  let dataFilePath := path_join rt (path_dirname rt (fsPath (_uri self))) filePath in
  do present <- existsSync dataFilePath;
  if negb present then
    showErrorMessage (filePath ++ " doesn't exist!")%string ;;
    ret DataNull
  else
    match decoderFor (_fileExtension self) with
    | Some Passthrough =>
        do text <- readFileSync dataFilePath; ret (DataText text)
    | Some BinarySpreadsheet =>
        do rows <- getBinaryExcelData dataFilePath; ret (DataRows rows)
    | Some TextSpreadsheet =>
        do rows <- getTextExcelData dataFilePath; ret (DataRows rows)
    | Some Columnar =>
        do rows <- getArrowData dataFilePath; ret (DataRows rows)
    | Some Avro =>
        do rows <- getAvroData dataFilePath; ret (DataRows rows)
    | Some ParquetPending =>
        showInformationMessage "Parquet data format support coming soon!" ;;
        ret DataNull
    | None => ret DataNull
    end.

(** [refresh] (244-268). *)
Definition refresh (dataTable : string) : M unit :=
  (if (0 <? String.length dataTable)%nat
   then assignThis (set_dataTable dataTable)
   else ret tt) ;;
  do self <- getThis;
  do data <-
    tryCatch (getFileData (_fileName self))
      (fun error => postMessage (ErrorReport error) ;; ret (DataRows []));
  loadData data.

Definition toText (s : option string) : string :=
  match s with
  | Some s => s
  | None => "undefined"
  end.

(** [loadConfig] (300-331), from the answer of the open dialog on
    ([undefined] when the dialog is dismissed). *)
Definition loadConfig (configFiles : option (list Uri)) : M unit :=
  match configFiles with
  | None => throw (TypeError "Cannot read property 'length' of undefined")
  | Some [] => ret tt
  | Some (configFile :: _) =>
      do configString <- readFileSync (fsPath configFile);
      match JSON_parse rt configString with
      | None => throw (SyntaxError "JSON.parse")
      | Some viewConfig =>
          do self <- getThis;
          if (0 <=? Js.indexOf (fsPath (_uri self)) (toText (dataFileName viewConfig)))%Z
          then
            assignThis (set_config (config viewConfig)) ;;
            assignThis (set_dataTable
              (match dataTable viewConfig with
               | None => ""
               | Some table => table
               end)) ;;
            do self' <- getThis;
            refresh (_dataTable self')
          else
            showErrorMessage
              ("Config data file '" ++ toText (dataFileName viewConfig)
                 ++ "' doesn't match '" ++ _fileName self ++ "'!")%string
      end
  end.

End Preview.

(** The two companion files of the preview's source file. *)
Definition jsonCompanion (self : DataPreview) : string :=
  Js.replace (fsPath (_uri self)) (_fileExtension self) ".json".

Definition schemaCompanion (self : DataPreview) : string :=
  Js.replace (fsPath (_uri self)) (_fileExtension self) ".schema.json".

(** What [createJsonFile] leaves on disk. *)
Definition companionWritten (rt : Runtime) (jsonFilePath : string) (jsonData : value)
  (disk : gmap string string) : gmap string string :=
  match disk !! jsonFilePath with
  | Some _ => disk
  | None => <[jsonFilePath := JSON_stringify rt jsonData]> disk
  end.

(** A computation keeps the view when it leaves [_config] and
    [_dataTable] as they are, however it completes. *)
Definition keepsView {A} (m : M A) : Prop :=
  ∀ st, _config (this (m st).2) = _config (this st)
        ∧ _dataTable (this (m st).2) = _dataTable (this st).

(** ** The Avro text-document provider *)

(** The closure variables of the handlers registered by one call of
    [provideTextDocumentContent]. *)
Record ProviderDecode := {
  decode_uri : Uri;
  decode_dataFilePath : string;
  decode_jsonData : nat;          (* the [JsonData] object they write to *)
  decode_promise : nat;           (* the promise they resolve *)
  decode_dataRows : list value;
  decode_dataSchema : value;
}.

(** [AvroContentProvider] and what it acts on.  [JsonData] objects are
    shared between [jsonFileDataMap] and the handlers, so they live in a
    store ([jsonDataObjects], by allocation index) and are referred to by
    index.  A promise is [None] until it is resolved. *)
Record Provider := {
  viewType : string;
  jsonFileDataMap : gmap string nat;
  jsonDataObjects : list string;
  decodes : list ProviderDecode;
  fired : list Uri;
  providerFiles : gmap string string;
  promises : list (option string);
}.

(** [resolve(text)]: settles the promise unless it is settled already. *)
Definition resolve (promise : nat) (text : string) (pv : Provider) : Provider :=
  {| viewType := viewType pv;
     jsonFileDataMap := jsonFileDataMap pv;
     jsonDataObjects := jsonDataObjects pv;
     decodes := decodes pv;
     fired := fired pv;
     providerFiles := providerFiles pv;
     promises :=
       match promises pv !! promise with
       | Some None => <[promise := Some text]> (promises pv)
       | _ => promises pv
       end |}.

(** [jsonData.data = text; this.onDidChangeEmitter.fire(uri)]. *)
Definition publishJson (decode : ProviderDecode) (text : string) (pv : Provider)
  : Provider :=
  {| viewType := viewType pv;
     jsonFileDataMap := jsonFileDataMap pv;
     jsonDataObjects := <[decode_jsonData decode := text]> (jsonDataObjects pv);
     decodes := decodes pv;
     fired := fired pv ++ [decode_uri decode];
     providerFiles := providerFiles pv;
     promises := promises pv |}.

(** [jsonData.data = text] alone. *)
Definition storeJson (decode : ProviderDecode) (text : string) (pv : Provider)
  : Provider :=
  {| viewType := viewType pv;
     jsonFileDataMap := jsonFileDataMap pv;
     jsonDataObjects := <[decode_jsonData decode := text]> (jsonDataObjects pv);
     decodes := decodes pv;
     fired := fired pv;
     providerFiles := providerFiles pv;
     promises := promises pv |}.

(** [fs.writeFile(jsonFilePath, text, callback)]: the file is replaced. *)
Definition writeFile (jsonFilePath text : string) (pv : Provider) : Provider :=
  {| viewType := viewType pv;
     jsonFileDataMap := jsonFileDataMap pv;
     jsonDataObjects := jsonDataObjects pv;
     decodes := decodes pv;
     fired := fired pv;
     providerFiles := <[jsonFilePath := text]> (providerFiles pv);
     promises := promises pv |}.

Definition setDecode (index : nat) (decode : ProviderDecode) (pv : Provider)
  : Provider :=
  {| viewType := viewType pv;
     jsonFileDataMap := jsonFileDataMap pv;
     jsonDataObjects := jsonDataObjects pv;
     decodes := <[index := decode]> (decodes pv);
     fired := fired pv;
     providerFiles := providerFiles pv;
     promises := promises pv |}.

Section AvroContentProvider.
Context (rt : Runtime).

(** [provideTextDocumentContent] (38-102), up to the registration of
    the handlers; the result is the promise returned.  After
    [resolve(cached data)] the body goes on: there is no [return]. *)
Definition provideTextDocumentContent (uri : Uri) (pv : Provider) : nat * Provider :=
  let promise := List.length (promises pv) in
  let jsonFilePath := Js.stripJsonSuffix (path uri) in
  let pending :=
    {| viewType := viewType pv;
       jsonFileDataMap := jsonFileDataMap pv;
       jsonDataObjects := jsonDataObjects pv;
       decodes := decodes pv;
       fired := fired pv;
       providerFiles := providerFiles pv;
       promises := promises pv ++ [None] |} in
  let afterCache :=
    match jsonFileDataMap pv !! jsonFilePath with
    | Some cached =>
        resolve promise (default "" (jsonDataObjects pv !! cached)) pending
    | None => pending
    end in
  let dataFilePath := uriString uri in
  let jsonData := List.length (jsonDataObjects afterCache) in
  (promise,
   {| viewType := viewType afterCache;
      jsonFileDataMap := <[jsonFilePath := jsonData]> (jsonFileDataMap afterCache);
      jsonDataObjects := jsonDataObjects afterCache ++ [""];
      decodes :=
        decodes afterCache ++
          [{| decode_uri := uri;
              decode_dataFilePath := dataFilePath;
              decode_jsonData := jsonData;
              decode_promise := promise;
              decode_dataRows := [];
              decode_dataSchema := VObject [] |}];
      fired := fired afterCache;
      providerFiles := providerFiles afterCache;
      promises := promises afterCache |}).

(** The ['metadata'] handler (56-72) of decoder number [index]. *)
Definition providerOnMetadata (index : nat) (type : value) (pv : Provider) : Provider :=
  match decodes pv !! index with
  | None => pv
  | Some decode =>
      let text := JSON_stringify rt type in
      let decode' :=
        {| decode_uri := decode_uri decode;
           decode_dataFilePath := decode_dataFilePath decode;
           decode_jsonData := decode_jsonData decode;
           decode_promise := decode_promise decode;
           decode_dataRows := decode_dataRows decode;
           decode_dataSchema := type |} in
      let jsonFilePath :=
        Js.replace (decode_dataFilePath decode) ".avro" ".avro.schema.json" in
      resolve (decode_promise decode) text
        (writeFile jsonFilePath text
           (publishJson decode text (setDecode index decode' pv)))
  end.

(** The ['data'] handler (77-81); registered for ['avro.data.json']. *)
Definition providerOnData (index : nat) (data : value) (pv : Provider) : Provider :=
  match decodes pv !! index with
  | None => pv
  | Some decode =>
      if String.eqb (viewType pv) "avro.data.json" then
        let rows := decode_dataRows decode ++ [data] in
        let decode' :=
          {| decode_uri := decode_uri decode;
             decode_dataFilePath := decode_dataFilePath decode;
             decode_jsonData := decode_jsonData decode;
             decode_promise := decode_promise decode;
             decode_dataRows := rows;
             decode_dataSchema := decode_dataSchema decode |} in
        publishJson decode (JSON_stringify rt (VArray rows)) (setDecode index decode' pv)
      else pv
  end.

(** The ['end'] handler (82-95); registered for ['avro.data.json']. *)
Definition providerOnEnd (index : nat) (pv : Provider) : Provider :=
  match decodes pv !! index with
  | None => pv
  | Some decode =>
      if String.eqb (viewType pv) "avro.data.json" then
        let text := JSON_stringify rt (VArray (decode_dataRows decode)) in
        let jsonFilePath :=
          Js.replace (decode_dataFilePath decode) ".avro" ".avro.json" in
        resolve (decode_promise decode) text
          (writeFile jsonFilePath text (storeJson decode text pv))
      else pv
  end.

Definition providerEvent (index : nat) (event : AvroEvent) (pv : Provider) : Provider :=
  match event with
  | OnMetadata type => providerOnMetadata index type pv
  | OnData data => providerOnData index data pv
  | OnEnd => providerOnEnd index pv
  end.

End AvroContentProvider.

(** A provider that has served no request yet. *)
Definition newProvider (view : string) (disk : gmap string string) : Provider :=
  {| viewType := view;
     jsonFileDataMap := ∅;
     jsonDataObjects := [];
     decodes := [];
     fired := [];
     providerFiles := disk;
     promises := [] |}.

(** ** A reference runtime and sample data *)

Module Sample.

(** POSIX [path.basename], [path.dirname] and [path.join] on absolute,
    normalized paths. *)
Definition basename (p : string) : string :=
  Js.substr p (Js.lastIndexOf p "/" + 1).

Definition dirname (p : string) : string :=
  let i := Js.lastIndexOf p "/" in
  if (i <? 0)%Z then "." else if (i =? 0)%Z then "/" else Js.substring0 p i.

Definition join (dir name : string) : string :=
  if String.eqb dir "/" then ("/" ++ name)%string else (dir ++ "/" ++ name)%string.

Definition newline : string := String (ascii_of_nat 10) EmptyString.
Definition quoteMark : string := String (ascii_of_nat 34) EmptyString.

Fixpoint escape (s : string) : string :=
  match s with
  | EmptyString => EmptyString
  | String c s' =>
      if (nat_of_ascii c =? 34)%nat then ("\" ++ quoteMark ++ escape s')%string
      else if (nat_of_ascii c =? 92)%nat then ("\\" ++ escape s')%string
      else String c (escape s')
  end.

Definition quote (s : string) : string := (quoteMark ++ escape s ++ quoteMark)%string.

Definition block (opening closing indent : string) (members : list string) : string :=
  match members with
  | [] => (opening ++ closing)%string
  | _ =>
      (opening ++ newline ++ indent ++ "  "
         ++ String.concat ("," ++ newline ++ indent ++ "  ") members
         ++ newline ++ indent ++ closing)%string
  end.

(** [JSON.stringify(v, null, 2)] on integers, booleans, [null], nested
    arrays and objects, and strings without control characters. *)
Fixpoint stringifyAt (indent : string) (v : value) : string :=
  match v with
  | VUndefined | VNull => "null"
  | VBool b => if b then "true" else "false"
  | VNumber n => pretty n
  | VString s => quote s
  | VObject props =>
      block "{" "}" indent
        (foldr (fun '(key, member) members =>
                  match member with
                  | VUndefined => members
                  | _ => (quote key ++ ": " ++ stringifyAt (indent ++ "  ") member)%string
                           :: members
                  end) [] props)
  | VArray elems =>
      block "[" "]" indent (map (stringifyAt (indent ++ "  ")) elems)
  end.

Definition stringify (v : value) : string := stringifyAt "" v.

(** The view configuration saved for [sales.csv]. *)
Definition salesConfigText : string :=
  stringify (VObject [("dataFileName", VString "sales.csv");
                      ("config", VObject [("plugin", VString "grid")])]).

Definition salesConfig : ViewConfig :=
  {| dataFileName := Some "sales.csv";
     config := VObject [("plugin", VString "grid")];
     dataTable := None |}.

(** A workbook with two sheets. *)
Definition ledger : WorkBook :=
  {| SheetNames := ["Q1"; "Q2"];
     Sheets :=
       {[ "Q1" := {| rowObjects := [VObject [("amount", VNumber 10)]] |};
          "Q2" := {| rowObjects := [VObject [("amount", VNumber 20)];
                                    VObject [("amount", VNumber 30)]] |} ]} |}.

Definition ledgerBytes : string := "ledger.xlsx bytes".

Definition runtime : Runtime :=
  {| path_basename := basename;
     path_dirname := dirname;
     path_join := join;
     JSON_stringify := stringify;
     JSON_parse := fun text =>
       if String.eqb text salesConfigText then Some salesConfig else None;
     xlsx_read := fun _ bytes =>
       if String.eqb bytes ledgerBytes then Some ledger else None;
     Table_from := fun _ => None;
     dataTypes := fun _ => VUndefined |}.

Definition fileUri (p : string) : Uri :=
  {| fsPath := p; path := p; uriString := ("file://" ++ p)%string |}.

Definition disk : gmap string string :=
  {[ "/data/sales.csv" := "id,amount";
     "/data/SALES.CSV" := "id,amount";
     "/data/2019-sales.csv" := "id,amount";
     "/data/sales.config" := salesConfigText;
     "/data/notes.md" := "# notes";
     "/data/ledger.xlsx" := ledgerBytes;
     "/data/events.avro" := "Obj1";
     "/data/events.json" := "kept" ]}.

(** A preview freshly opened on [p]. *)
Definition opened (p : string) : State :=
  {| this := newDataPreview runtime (fileUri p) (VObject []);
     files := disk;
     posted := [];
     errorMessages := [];
     informationMessages := [];
     fileDecoders := [] |}.

(** The Avro schema and rows of the scenario in section 8. *)
Definition idSchema : value :=
  VObject [("type", VString "record");
           ("fields", VArray [VObject [("name", VString "id");
                                       ("type", VString "int")]])].

Definition idRows : list value :=
  [VObject [("id", VNumber 1)]; VObject [("id", VNumber 2)]].

(** A row with a nested record, an array and a name collision. *)
Definition nestedRow : value :=
  VObject [("id", VNumber 1);
           ("name", VString "outer");
           ("address", VObject [("city", VString "Oslo");
                                ("name", VString "inner")]);
           ("tags", VArray [VString "a"; VString "b"]);
           ("note", VNull)].

(** The provider asked for the JSON view of [events.avro], with a schema
    file from an earlier session at the path the handlers write to. *)
Definition eventsUri : Uri :=
  {| fsPath := "/data/events.avro.json";
     path := "/data/events.avro.json";
     uriString := "avro.data.json:/data/events.avro.json" |}.

Definition providerDisk : gmap string string :=
  {[ "avro.data.json:/data/events.avro.schema.json.json" := "kept" ]}.

Definition firstRequest : Provider :=
  (provideTextDocumentContent eventsUri (newProvider "avro.data.json" providerDisk)).2.

Definition schemaSeen : Provider :=
  providerOnMetadata runtime 0 idSchema firstRequest.

End Sample.

(** ** Auxiliary definitions for the further properties *)

(** The state after the first statement of [refresh]: a non-empty table
    name is stored in [_dataTable]. *)
Definition requestedTable (dataTable : string) (st : State) : State :=
  if (0 <? String.length dataTable)%nat then withThis (set_dataTable dataTable) st
  else st.

(** The path [getFileData] reads: the file name joined to the directory
    of the document's path. *)
Definition dataFilePathOf (rt : Runtime) (self : DataPreview) : string :=
  path_join rt (path_dirname rt (fsPath (_uri self))) (_fileName self).

(** The sheet [getExcelData] converts: the stored table name if there is
    one, the first sheet otherwise. *)
Definition selectedSheet (self : DataPreview) (firstSheet : string) : string :=
  if (0 <? String.length (_dataTable self))%nat then _dataTable self else firstSheet.

(** The companion path of [getExcelData], given the table list as it is
    after the sheet names were stored. *)
Definition sheetCompanion (self : DataPreview) (tableList : list string)
  (sheetName : string) : string :=
  if (0 <? String.length (_dataTable self))%nat && (1 <? List.length tableList)%nat
  then Js.replace (jsonCompanion self) ".json" ("-" ++ sheetName ++ ".json")%string
  else jsonCompanion self.





(** The events that decoder number [index] of the provider emits, each
    run by its handler, in the order they arrive. *)
Definition providerEvents (rt : Runtime) (index : nat) (events : list AvroEvent)
  (pv : Provider) : Provider :=
  foldl (fun pv event => providerEvent rt index event pv) pv events.

(** The closure variables of a provider decode with rows and schema
    replaced. *)
Definition decodeWith (rows : list value) (schema : value) (decode : ProviderDecode)
  : ProviderDecode :=
  {| decode_uri := decode_uri decode;
     decode_dataFilePath := decode_dataFilePath decode;
     decode_jsonData := decode_jsonData decode;
     decode_promise := decode_promise decode;
     decode_dataRows := rows;
     decode_dataSchema := schema |}.

(** ** Saving data and the messages of the webview *)

(** [s.endsWith(searchString)]. *)
Definition endsWith (s searchString : string) : bool :=
  (String.length searchString <=? String.length s)%nat
  && String.eqb
       (String.substring (String.length s - String.length searchString)
          (String.length searchString) s)
       searchString.

(** What becomes of [window.showSaveDialog]: [Uri.parse] can throw
    while the default uri is built, the dialog can be dismissed
    ([undefined]), or a file is chosen. *)
Inductive SaveDialogAnswer :=
  | DefaultUriRejected
  | SaveDismissed
  | SaveChosen (dataFileUri : Uri).

(** [fs.writeFile(filePath, content, callback)]; the disk of the model
    takes every write, so the callback gets no error. *)
Definition writeFileSucceeds (filePath content : string) : M unit :=
  fun st => (Normal tt, withFiles <[filePath := content]> st).

(** The path that [saveData] proposes (603-609). *)
Definition saveDataPath (self : DataPreview) (fileType : string) : string :=
  (Js.replace (fsPath (_uri self)) (_fileExtension self) ""
   ++ (if (0 <? String.length (_dataTable self))%nat then "-" ++ _dataTable self else "")
   ++ fileType)%string.

(** Messages that the webview sends; [table] is absent ([undefined]) or
    a string. *)
Inductive WebviewMessage :=
  | RefreshRequest (table : option string)
  | ConfigUpdate (config : value)
  | SaveDataRequest (fileType : string) (data : value)
  | LoadConfigRequest
  | OtherCommand (command : string).

(** An [async] method called without [await]: what it throws rejects a
    promise that nobody holds, the caller goes on. *)
Definition detached (m : M unit) : M unit := tryCatch m (fun _ => ret tt).

Section Webview.
Context (rt : Runtime).

(** What [fs.writeFile] takes from data that is no string depends on
    the Node version: the text it is coerced to, or none, when the call
    throws. *)
Context (coerced : value → option string).

(** [saveData] (602-629), with the answer of the save dialog.  The part
    after the dialog is taken at the moment the dialog is answered.
    [JSON.stringify(undefined)] is [undefined], not a string. *)
Definition saveData (fileType : string) (fileData : value) (answer : SaveDialogAnswer)
  : M unit :=
  do self <- getThis;
  let dataFilePath := saveDataPath self fileType in
  match answer with
  | DefaultUriRejected => throw (ParseError "Uri.parse")
  | SaveDismissed => ret tt
  | SaveChosen dataFileUri =>
      let fileData :=
        if endsWith dataFilePath ".config" || endsWith dataFilePath ".json"
        then match fileData with
             | VUndefined => VUndefined
             | _ => VString (JSON_stringify rt fileData)
             end
        else fileData in
      match fileData with
      | VString text => writeFileSucceeds (fsPath dataFileUri) text
      | _ =>
          match coerced fileData with
          | Some text => writeFileSucceeds (fsPath dataFileUri) text
          | None => throw (TypeError "The data argument must be a string or a Buffer")
          end
      end
  end.

(** The handler of [webview.onDidReceiveMessage] (163-191), with the
    answers of the dialogs that [saveData] and [loadConfig] open.  A
    [refresh] message without [table] takes the default [''] of the
    parameter; both [undoConfig] cases are empty. *)
Definition onDidReceiveMessage (saveAnswer : SaveDialogAnswer)
  (openAnswer : option (list Uri)) (message : WebviewMessage) : M unit :=
  match message with
  | RefreshRequest table => refresh rt (default "" table)
  | ConfigUpdate config => assignThis (set_config config)
  | SaveDataRequest fileType data => detached (saveData fileType data saveAnswer)
  | LoadConfigRequest => detached (loadConfig rt openAnswer)
  | OtherCommand _ => ret tt
  end.

End Webview.

(** A computation is silent when it posts nothing to the webview. *)
Definition silent {A} (m : M A) : Prop :=
  ∀ st, posted (m st).2 = posted st.

(** A message carries the view of a preview when, being a data message,
    it holds the preview's configuration and selected table. *)
Definition carriesView (self : DataPreview) (message : Message) : Prop :=
  match message with
  | RefreshCommand refreshed =>
      msg_config refreshed = _config self ∧ msg_table refreshed = _dataTable self
  | ErrorReport _ => True
  end.

(** Further sample states. *)
Module Scenario.

Definition withFile (filePath content : string) (st : State) : State :=
  withFiles <[filePath := content]> st.

(** A spreadsheet file that the xlsx reader rejects. *)
Definition brokenWorkbook : State :=
  withFile "/data/broken.xlsx" "not a workbook" (Sample.opened "/data/broken.xlsx").

(** An empty text file. *)
Definition emptyText : State :=
  withFile "/data/empty.csv" "" (Sample.opened "/data/empty.csv").

(** A preview whose file has been removed. *)
Definition removed : State := Sample.opened "/data/removed.csv".

(** The ledger with its second sheet selected earlier. *)
Definition ledgerQ2 : State :=
  withThis (set_dataTable "Q2") (Sample.opened "/data/ledger.xlsx").

(** The ledger with a table selected that it does not have. *)
Definition ledgerQ9 : State :=
  withThis (set_dataTable "Q9") (Sample.opened "/data/ledger.xlsx").

(** An Arrow table of two rows, with a parametrized column type. *)
Definition trades : ArrowTable :=
  {| table_length := 2;
     table_fields := [ {| field_name := "id"; field_type := "Int32" |};
                       {| field_name := "at"; field_type := "Timestamp<MILLISECOND>" |} ];
     table_cell := fun index i =>
       match index with
       | O => VNumber (Z.of_nat i + 1)
       | _ => VString "noon"
       end;
     table_schema := VObject [("fields", VArray [VString "id"; VString "at"])] |}.

Definition tradesBytes : string := "ARROW1".

(** An Arrow table whose field names include array indices, a name used
    twice and [__proto__]. *)
Definition mixedKeys : ArrowTable :=
  {| table_length := 1;
     table_fields := [ {| field_name := "b"; field_type := "Utf8" |};
                       {| field_name := "10"; field_type := "Int32" |};
                       {| field_name := "__proto__"; field_type := "Utf8" |};
                       {| field_name := "9"; field_type := "Int32" |};
                       {| field_name := "a"; field_type := "Utf8" |};
                       {| field_name := "b"; field_type := "Utf8" |};
                       {| field_name := "07"; field_type := "Int32" |} ];
     table_cell := fun index _ => VNumber (Z.of_nat index);
     table_schema := VObject [] |}.

(** A workbook with a single sheet, and the bytes of the ledger file
    after it has been saved with that sheet alone. *)
Definition summary : WorkBook :=
  {| SheetNames := ["Total"];
     Sheets := {[ "Total" := {| rowObjects := [VObject [("amount", VNumber 60)]] |} ]} |}.

Definition summaryBytes : string := "ledger.xlsx bytes, one sheet".

(** A view configuration saved with an empty data file name. *)
Definition blankConfig : ViewConfig :=
  {| dataFileName := Some "";
     config := VObject [("plugin", VString "chart")];
     dataTable := Some "Q2" |}.

Definition blankConfigText : string :=
  Sample.stringify (VObject [("dataFileName", VString "");
                             ("config", VObject [("plugin", VString "chart")]);
                             ("dataTable", VString "Q2")]).

(** The sample runtime with an Arrow reader, display types, the second
    configuration and the one-sheet workbook. *)
Definition runtime : Runtime :=
  {| path_basename := Sample.basename;
     path_dirname := Sample.dirname;
     path_join := Sample.join;
     JSON_stringify := Sample.stringify;
     JSON_parse := fun text =>
       if String.eqb text blankConfigText then Some blankConfig
       else JSON_parse Sample.runtime text;
     xlsx_read := fun type bytes =>
       if String.eqb bytes summaryBytes then Some summary
       else xlsx_read Sample.runtime type bytes;
     Table_from := fun bytes =>
       if String.eqb bytes tradesBytes then Some trades else None;
     dataTypes := fun typeName =>
       if String.eqb typeName "Int32" then VString "integer"
       else if String.eqb typeName "Timestamp" then VString "datetime"
       else VUndefined |}.


(** The ledger, with the second configuration on disk. *)
Definition ledgerBlankConfig : State :=
  withFile "/data/blank.config" blankConfigText (Sample.opened "/data/ledger.xlsx").

End Scenario.

(** * Properties *)

(** ** The string operations on examples *)

Example indexOf_examples :
  Js.indexOf "/data/sales.csv" "sales" = 6%Z
  ∧ Js.indexOf "/data/sales.csv" "undefined" = (-1)%Z
  ∧ Js.indexOf "/data/sales.csv" "" = 0%Z
  ∧ Js.lastIndexOf "a.b.json" "." = 3%Z
  ∧ Js.lastIndexOf "README" "." = (-1)%Z.
Proof. vm_compute. auto. Qed.

Example substr_examples :
  Js.substr "a.b.json" 3 = ".json"
  ∧ Js.substr "README" (-1) = "E"
  ∧ Js.substr "" (-1) = ""
  ∧ Js.substr "abc" 7 = "".
Proof. vm_compute. auto. Qed.

Example replace_examples :
  Js.replace "/data/events.avro" ".avro" ".schema.json" = "/data/events.schema.json"
  ∧ Js.replace "/data.csv/data.csv" ".csv" ".json" = "/data.json/data.csv"
  ∧ Js.replace "/data/README" ".csv" ".json" = "/data/README"
  ∧ Js.stripJsonSuffix "/data/events.avro.json" = "/data/events.avro"
  ∧ Js.stripJsonSuffix "/data/eventsjson" = "/data/event"
  ∧ Js.stripJsonSuffix "json" = "json"
  ∧ Js.stripJsonSuffix "/data/events.avro" = "/data/events.avro".
Proof. vm_compute. auto 10. Qed.

(** ** Induction on values *)

Section value_induction.
Variable P : value → Prop.
Hypothesis Hundefined : P VUndefined.
Hypothesis Hnull : P VNull.
Hypothesis Hbool : ∀ b, P (VBool b).
Hypothesis Hnumber : ∀ n, P (VNumber n).
Hypothesis Hstring : ∀ s, P (VString s).
Hypothesis Hobject : ∀ props, Forall (fun kv => P kv.2) props → P (VObject props).
Hypothesis Harray : ∀ elems, Forall P elems → P (VArray elems).

Fixpoint value_nested_ind (v : value) : P v :=
  match v with
  | VUndefined => Hundefined
  | VNull => Hnull
  | VBool b => Hbool b
  | VNumber n => Hnumber n
  | VString s => Hstring s
  | VObject props =>
      Hobject props
        ((fix each (ps : list (string * value)) : Forall (fun kv => P kv.2) ps :=
            match ps with
            | [] => @List.Forall_nil _ _
            | kv :: ps' => @List.Forall_cons _ _ _ _ (value_nested_ind kv.2) (each ps')
            end) props)
  | VArray elems =>
      Harray elems
        ((fix each (es : list value) : Forall P es :=
            match es with
            | [] => @List.Forall_nil _ _
            | e :: es' => @List.Forall_cons _ _ _ _ (value_nested_ind e) (each es')
            end) elems)
  end.
End value_induction.

(** ** Unfolding the loops of [flattenObject] and [leafFields] *)

Lemma flatten_array_loop (elems : list value) (i : nat) (flat : gmap string value) :
  (foldl (fun '(i, flatObject) v =>
            (S i, if isNestedObject v then flattenObject v ∪ flatObject
                  else <[pretty i := v]> flatObject)) (i, flat) elems).2
  = flattenProperties (indexedFrom i elems) flat.
Proof.
  revert i flat. induction elems as [|e elems IH]; intros i flat; [reflexivity|].
  cbn [foldl indexedFrom]. rewrite IH. reflexivity.
Qed.

Lemma flatten_object_loop (props : list (string * value)) (flat : gmap string value) :
  foldl (fun flatObject '(key, v) =>
           if isNestedObject v then flattenObject v ∪ flatObject
           else <[key := v]> flatObject) flat props
  = flattenProperties props flat.
Proof.
  revert flat. induction props as [|[key v] props IH]; intros flat; [reflexivity|].
  cbn [foldl]. rewrite IH. reflexivity.
Qed.

Lemma flattenProperties_scalars (props : list (string * value)) (flat : gmap string value) :
  allScalar props → flattenProperties props flat = list_to_map (reverse props) ∪ flat.
Proof.
  intros Hs. revert flat. induction Hs as [|[key v] props Hv _ IH]; intros flat.
  - cbn. by rewrite (left_id_L ∅ (∪)).
  - unfold flattenProperties in *. cbn [foldl]. rewrite IH.
    unfold flattenStep. cbn [fst snd] in *. rewrite Hv.
    rewrite reverse_cons, list_to_map_app. cbn [list_to_map foldr].
    rewrite <- (assoc_L (∪)). f_equal.
    rewrite insert_union_singleton_l. cbn [uncurry].
    by rewrite insert_empty.
Qed.



Lemma characters_scalar (s : string) (j : nat) :
  allScalar (indexedFrom j (characters s)).
Proof.
  revert j. induction s as [|c s IH]; intros j; constructor; [reflexivity|apply IH].
Qed.

Lemma flatten_scalar_loop (props : list (string * value)) (flat : gmap string value) :
  allScalar props →
  foldl (fun flatObject '(key, v) => <[key := v]> flatObject) flat props
  = flattenProperties props flat.
Proof.
  intros Hs. revert flat. induction Hs as [|[key v] props Hv _ IH]; intros flat.
  - reflexivity.
  - cbn [foldl]. rewrite IH. unfold flattenProperties. cbn [foldl].
    unfold flattenStep. cbn [fst snd] in *. by rewrite Hv.
Qed.

Lemma flattenObject_properties (obj : value) :
  flattenObject obj = flattenProperties (ownProperties obj) ∅.
Proof.
  destruct obj; try reflexivity; cbn [flattenObject ownProperties].
  - apply flatten_scalar_loop, characters_scalar.
  - apply flatten_object_loop.
  - apply flatten_array_loop.
Qed.

Lemma leaf_array_loop (elems : list value) (i : nat) (acc : list (string * value)) :
  (foldl (fun '(i, acc) v =>
            (S i, acc ++ (if isNestedObject v then leafFields v
                          else [(pretty i, v)]))) (i, acc) elems).2
  = acc ++ flat_map leavesOfField (indexedFrom i elems).
Proof.
  revert i acc. induction elems as [|e elems IH]; intros i acc.
  - cbn. by rewrite app_nil_r.
  - cbn [foldl indexedFrom flat_map]. rewrite IH, <- app_assoc. reflexivity.
Qed.

Lemma leafFields_properties (obj : value) :
  leafFields obj = flat_map leavesOfField (ownProperties obj).
Proof.
  destruct obj; try reflexivity.
  - cbn [leafFields ownProperties].
    generalize 0%nat. induction s as [|c s IH]; intros j; [reflexivity|].
    cbn. f_equal. apply IH.
  - cbn [leafFields ownProperties].
    induction props as [|[key v] props IH]; [reflexivity|].
    cbn [flat_map]. by rewrite IH.
  - cbn [leafFields ownProperties]. apply leaf_array_loop.
Qed.

(** ** Last-wins unions *)

Lemma lastWins_app (l1 l2 : list (string * value)) :
  lastWins (l1 ++ l2) = lastWins l2 ∪ lastWins l1.
Proof. unfold lastWins. by rewrite reverse_app, list_to_map_app. Qed.

Lemma lastWins_cons (kv : string * value) (l : list (string * value)) :
  lastWins (kv :: l) = lastWins l ∪ {[kv.1 := kv.2]}.
Proof.
  change (kv :: l) with ([kv] ++ l). rewrite lastWins_app.
  destruct kv as [k v]. unfold lastWins at 2. cbn. by rewrite insert_empty.
Qed.

Lemma lastWins_lookup_None (l : list (string * value)) (key : string) :
  lastWins l !! key = None ↔ key ∉ l.*1.
Proof.
  unfold lastWins. rewrite <- not_elem_of_list_to_map.
  by rewrite fmap_reverse, elem_of_reverse.
Qed.

Lemma lastWins_lookup_Some (l : list (string * value)) (key : string) (v : value) :
  lastWins l !! key = Some v
  ↔ ∃ l1 l2, l = l1 ++ (key, v) :: l2 ∧ key ∉ l2.*1.
Proof.
  induction l as [|[k w] l IH].
  - split; [done|]. intros (l1 & l2 & Heq & _). by destruct l1.
  - rewrite lastWins_cons. cbn [fst snd]. rewrite lookup_union_Some_raw.
    rewrite IH, lastWins_lookup_None, lookup_singleton_Some. split.
    + intros [(l1 & l2 & -> & Hl2)|(Hnot & -> & ->)].
      * exists ((k, w) :: l1), l2. done.
      * exists [], l. done.
    + intros (l1 & l2 & Heq & Hl2). destruct l1 as [|kv l1]; simplify_eq/=.
      * right. done.
      * left. eauto.
Qed.

(** ** The normalizer computes the last-wins union of the leaves *)

Lemma flattenProperties_leaves (props : list (string * value)) (flat : gmap string value) :
  Forall (fun kv => flattenObject kv.2 = lastWins (leafFields kv.2)) props →
  flattenProperties props flat = lastWins (flat_map leavesOfField props) ∪ flat.
Proof.
  intros Hall. revert flat.
  induction Hall as [|[key v] props Hv _ IH]; intros flat.
  - cbn. by rewrite (left_id_L ∅ (∪)).
  - unfold flattenProperties in *. cbn [foldl flat_map]. rewrite IH.
    rewrite lastWins_app, <- (assoc_L (∪)). f_equal.
    unfold flattenStep, leavesOfField. cbn [fst snd] in *.
    destruct (isNestedObject v).
    + by rewrite Hv.
    + rewrite lastWins_cons. cbn [fst snd]. unfold lastWins. cbn.
      rewrite (left_id_L ∅ (∪)). by rewrite insert_union_singleton_l.
Qed.

Lemma Forall_indexedFrom (P : value → Prop) (elems : list value) (j : nat) :
  Forall P elems → Forall (fun kv => P kv.2) (indexedFrom j elems).
Proof.
  intros H. revert j. induction H; intros j; constructor; auto.
Qed.

Lemma flattenObject_lastWins (obj : value) :
  flattenObject obj = lastWins (leafFields obj).
Proof.
  induction obj using value_nested_ind;
    rewrite flattenObject_properties, leafFields_properties; try reflexivity.
  - cbn [ownProperties]. rewrite flattenProperties_leaves, (right_id_L ∅ (∪)); [done|].
    apply Forall_indexedFrom with (P := fun v => flattenObject v = lastWins (leafFields v)).
    induction s; constructor; auto.
  - cbn [ownProperties]. by rewrite flattenProperties_leaves, (right_id_L ∅ (∪)).
  - cbn [ownProperties]. rewrite flattenProperties_leaves, (right_id_L ∅ (∪)); [done|].
    by apply Forall_indexedFrom with (P := fun v => flattenObject v = lastWins (leafFields v)).
Qed.

Lemma leafFields_scalar (obj : value) :
  allScalar (leafFields obj).
Proof.
  induction obj as [| | | |s|props IH|elems IH] using value_nested_ind;
    try by constructor.
  - apply characters_scalar.
  - rewrite leafFields_properties.
    cbn [ownProperties]. induction IH as [|[key v] props Hv _ IHprops]; [constructor|].
    cbn [flat_map]. apply Forall_app. split; [|done].
    unfold leavesOfField. cbn [snd] in *. destruct (isNestedObject v) eqn:Hn; [done|].
    by constructor.
  - rewrite leafFields_properties. cbn [ownProperties]. generalize 0%nat.
    induction IH as [|e elems He _ IHelems]; intros j; [constructor|].
    cbn [indexedFrom flat_map]. apply Forall_app. split; [|apply IHelems].
    unfold leavesOfField. cbn [snd]. destruct (isNestedObject e) eqn:Hn; [done|].
    by constructor.
Qed.

Lemma flattenObject_field (obj : value) (before after : list (string * value))
    (kv : string * value) (key : string) (v : value) :
  ownProperties obj = before ++ kv :: after →
  lastWins (leavesOfField kv) !! key = Some v →
  key ∉ (flat_map leavesOfField after).*1 →
  flattenObject obj !! key = Some v.
Proof.
  intros Hprops Hkv Hafter.
  rewrite flattenObject_lastWins, leafFields_properties, Hprops.
  rewrite flat_map_app. cbn [flat_map]. rewrite !lastWins_app.
  apply lookup_union_Some_raw. left.
  apply lookup_union_Some_raw. right. split; [by apply lastWins_lookup_None|done].
Qed.

Lemma flattenObject_scalar_values (obj : value) (key : string) (v : value) :
  flattenObject obj !! key = Some v → isNestedObject v = false.
Proof.
  rewrite flattenObject_lastWins, lastWins_lookup_Some.
  intros (earlier & later & Heq & _).
  pose proof (leafFields_scalar obj) as Hs. rewrite Heq in Hs.
  apply Forall_app in Hs as [_ Hs]. by inversion Hs.
Qed.

(** ** Claims about the record normalizer *)

Example flattenObject_nestedRow :
  flattenObject Sample.nestedRow
  = {[ "id" := VNumber 1; "name" := VString "inner"; "city" := VString "Oslo";
       "0" := VString "a"; "1" := VString "b"; "note" := VNull ]}.
Proof. vm_compute. reflexivity. Qed.

Example flattenObject_array_of_records :
  flattenObject (VObject [("rows", VArray [VObject [("a", VNumber 1)];
                                           VObject [("a", VNumber 2)]])])
  = {[ "a" := VNumber 2 ]}.
Proof. vm_compute. reflexivity. Qed.

Example flattenObject_empty_record_field :
  flattenObject (VObject [("id", VNumber 1); ("extra", VObject [])])
  = {[ "id" := VNumber 1 ]}.
Proof. vm_compute. reflexivity. Qed.

Example fileExtension_examples :
  _fileExtension (newDataPreview Sample.runtime (Sample.fileUri "/data/a.b.json") VNull)
  = ".json"
  ∧ _fileExtension (newDataPreview Sample.runtime (Sample.fileUri "/data/README") VNull)
    = "E".
Proof. vm_compute. auto. Qed.

(** C1.  For every value [obj] the normalizer is called on, the result
    holds exactly the scalar leaf fields of every nesting level, merged
    depth-first with the last field of a name winning: [key] is bound to
    [v] iff [(key, v)] is a leaf with no later leaf of that name; every
    bound value is scalar; a field that is not a nested object is copied
    as it is and the fields of a nested object are merged into the top
    level, unless a later field overwrites them.  The result is a function
    of [obj] alone. *)
Theorem flattenObject_union_of_leaves (obj : value) :
  (∀ key v, flattenObject obj !! key = Some v
     ↔ ∃ earlier later,
         leafFields obj = earlier ++ (key, v) :: later ∧ key ∉ later.*1)
  ∧ (∀ key v, flattenObject obj !! key = Some v → isNestedObject v = false)
  ∧ (∀ before key v after,
       ownProperties obj = before ++ (key, v) :: after →
       isNestedObject v = false →
       key ∉ (flat_map leavesOfField after).*1 →
       flattenObject obj !! key = Some v)
  ∧ (∀ before key nestedRecord after inner v,
       ownProperties obj = before ++ (key, nestedRecord) :: after →
       isNestedObject nestedRecord = true →
       flattenObject nestedRecord !! inner = Some v →
       inner ∉ (flat_map leavesOfField after).*1 →
       flattenObject obj !! inner = Some v).
Proof.
  split_and!.
  - intros key v. rewrite flattenObject_lastWins. apply lastWins_lookup_Some.
  - apply flattenObject_scalar_values.
  - intros before key v after Hprops Hv Hafter.
    eapply flattenObject_field; [done| |done].
    unfold leavesOfField. cbn [snd]. rewrite Hv.
    apply lastWins_lookup_Some. exists [], []. split; [done|]. apply not_elem_of_nil.
  - intros before key nestedRecord after inner v Hprops Hn Hin Hafter.
    eapply flattenObject_field; [done| |done].
    unfold leavesOfField. cbn [snd]. rewrite Hn. by rewrite <- flattenObject_lastWins.
Qed.

(** C2.  On a record whose fields are all scalar (and, as in every
    JavaScript object, pairwise distinct in name) the normalizer returns
    the record itself: the same fields with the same values. *)
Theorem flattenObject_flat_identity (props : list (string * value)) :
  allScalar props →
  NoDup props.*1 →
  flattenObject (VObject props) = list_to_map props
  ∧ map_to_list (flattenObject (VObject props)) ≡ₚ props.
Proof.
  intros Hs Hnd.
  assert (Heq : flattenObject (VObject props) = list_to_map props).
  { rewrite flattenObject_properties. cbn [ownProperties].
    rewrite flattenProperties_scalars, (right_id_L ∅ (∪)) by done.
    apply list_to_map_proper; [|by rewrite reverse_Permutation].
    by rewrite fmap_reverse, reverse_Permutation. }
  split; [done|]. rewrite Heq. by apply map_to_list_to_map.
Qed.






(** Decides that a concrete key is not among concrete field names. *)
Ltac not_among :=
  let H := fresh "H" in
  intros H; apply list_elem_of_In in H; vm_compute in H;
  repeat (destruct H as [H|H]; [discriminate H|]); exact H.

Lemma flattenObject_union_of_leaves_witness :
  flattenObject Sample.nestedRow !! "name" = Some (VString "inner")
  ∧ flattenObject Sample.nestedRow !! "id" = Some (VNumber 1).
Proof.
  pose proof (flattenObject_union_of_leaves Sample.nestedRow) as (_ & _ & Hcopy & Hmerge).
  split.
  - apply (Hmerge [("id", VNumber 1); ("name", VString "outer")] "address"
             (VObject [("city", VString "Oslo"); ("name", VString "inner")])
             [("tags", VArray [VString "a"; VString "b"]); ("note", VNull)]).
    + reflexivity.
    + reflexivity.
    + vm_compute. reflexivity.
    + not_among.
  - apply (Hcopy [] "id" (VNumber 1)
             [("name", VString "outer");
              ("address", VObject [("city", VString "Oslo"); ("name", VString "inner")]);
              ("tags", VArray [VString "a"; VString "b"]); ("note", VNull)]).
    + reflexivity.
    + reflexivity.
    + not_among.
Defined.

Lemma flattenObject_flat_identity_witness :
  flattenObject (VObject [("id", VNumber 1); ("city", VString "Oslo")])
  = list_to_map [("id", VNumber 1); ("city", VString "Oslo")]
  ∧ map_to_list (flattenObject (VObject [("id", VNumber 1); ("city", VString "Oslo")]))
    ≡ₚ [("id", VNumber 1); ("city", VString "Oslo")].
Proof.
  apply flattenObject_flat_identity.
  - repeat constructor.
  - cbn. repeat (constructor; [not_among|]). constructor.
Defined.


(** ** The format detector *)

Lemma oneOf_true (s : string) (labels : list string) :
  oneOf s labels = true → s ∈ labels.
Proof.
  unfold oneOf. rewrite existsb_exists. intros (label & Hin & Heq).
  apply String.eqb_eq in Heq as ->. by apply list_elem_of_In.
Qed.

Lemma decoderFor_Some (fileExtension : string) (decoder : Decoder) :
  decoderFor fileExtension = Some decoder →
  (fileExtension, decoder) ∈ supportedExtensions ++ [(".parquet", ParquetPending)].
Proof.
  unfold decoderFor. intros H.
  repeat match type of H with
  | (if oneOf ?s ?labels then _ else _) = _ =>
      let Hone := fresh "Hone" in
      destruct (oneOf s labels) eqn:Hone;
      [apply oneOf_true in Hone; injection H as <-;
       repeat (apply elem_of_cons in Hone as [->|Hone]);
       [apply list_elem_of_In; cbn; repeat (first [left; reflexivity | right])..
       |by apply elem_of_nil in Hone]
      |]
  end.
  discriminate H.
Qed.

Lemma toLowerCase_supported (fileExtension : string) (decoder : Decoder) :
  decoderFor fileExtension = Some decoder → Js.toLowerCase fileExtension = fileExtension.
Proof.
  intros H%decoderFor_Some. apply list_elem_of_In in H. cbn in H.
  repeat (destruct H as [[= <- <-]|H]; [reflexivity|]). destruct H.
Qed.

Lemma getFileData_no_decoder (rt : Runtime) (filePath : string) (st : State) :
  decoderFor (_fileExtension (this st)) = None →
  ∃ st', getFileData rt filePath st = (Normal DataNull, st') ∧ this st' = this st
         ∧ posted st' = posted st ∧ files st' = files st.
Proof.
  intros Hnone. unfold getFileData, bind, getThis, existsSync. cbn.
  case_bool_decide; cbn.
  - rewrite Hnone. eauto.
  - eauto.
Qed.

(** C3, amended.  The format detector selects the decoder from the
    extension alone, by exact comparison with the lower-case extensions
    of the table: every extension of the table selects its decoder, no
    other extension selects one of these decoders, and an extension with
    an upper-case letter selects none, in which case no data is
    returned. *)
Theorem decoderFor_exact_extension :
  (∀ fileExtension decoder,
     (fileExtension, decoder) ∈ supportedExtensions →
     decoderFor fileExtension = Some decoder)
  ∧ (∀ fileExtension decoder,
       decoderFor fileExtension = Some decoder →
       decoder ≠ ParquetPending →
       (fileExtension, decoder) ∈ supportedExtensions)
  ∧ (∀ fileExtension,
       Js.toLowerCase fileExtension ≠ fileExtension →
       decoderFor fileExtension = None)
  ∧ (∀ rt filePath st,
       Js.toLowerCase (_fileExtension (this st)) ≠ _fileExtension (this st) →
       (getFileData rt filePath st).1 = Normal DataNull).
Proof.
  assert (Hupper : ∀ fileExtension,
            Js.toLowerCase fileExtension ≠ fileExtension →
            decoderFor fileExtension = None).
  { intros fileExtension Hcase.
    destruct (decoderFor fileExtension) as [decoder|] eqn:Hd; [|done].
    by apply toLowerCase_supported in Hd. }
  split_and!; [| |done|].
  - intros fileExtension decoder Hin. apply list_elem_of_In in Hin. cbn in Hin.
    repeat (destruct Hin as [[= <- <-]|Hin]; [reflexivity|]). destruct Hin.
  - intros fileExtension decoder Hd Hnot.
    apply decoderFor_Some, elem_of_app in Hd as [Hd|Hd]; [done|].
    apply list_elem_of_singleton in Hd as [= _ ->]. done.
  - intros rt filePath st Hcase.
    destruct (getFileData_no_decoder rt filePath st (Hupper _ Hcase)) as (st' & -> & _).
    reflexivity.
Qed.

Lemma decoderFor_exact_extension_witness :
  decoderFor ".avro" = Some Avro
  ∧ (getFileData Sample.runtime "SALES.CSV" (Sample.opened "/data/SALES.CSV")).1
    = Normal DataNull.
Proof.
  pose proof decoderFor_exact_extension as (Htable & _ & _ & Hupper).
  split.
  - apply Htable. apply list_elem_of_In. cbn. tauto.
  - apply Hupper. vm_compute. discriminate.
Defined.

(** C3 as stated fails: [.CSV] and [.csv] agree up to letter case, yet
    only [.csv] selects the passthrough decoder; for [SALES.CSV] no
    decoder is selected and no data is returned. *)
Lemma format_detector_is_case_sensitive :
  Js.toLowerCase (_fileExtension (this (Sample.opened "/data/SALES.CSV")))
  = Js.toLowerCase (_fileExtension (this (Sample.opened "/data/sales.csv")))
  ∧ decoderFor (_fileExtension (this (Sample.opened "/data/sales.csv")))
    = Some Passthrough
  ∧ decoderFor (_fileExtension (this (Sample.opened "/data/SALES.CSV"))) = None
  ∧ (getFileData Sample.runtime "sales.csv" (Sample.opened "/data/sales.csv")).1
    = Normal (DataText "id,amount")
  ∧ (getFileData Sample.runtime "SALES.CSV" (Sample.opened "/data/SALES.CSV")).1
    = Normal DataNull.
Proof. vm_compute. auto. Qed.

(** ** Unsupported formats *)

(** C4 fails on the code.  When the extension selects no decoder,
    [getFileData] returns [null]; [loadData] then reads [data.length]
    outside any [try], and the TypeError leaves [refresh].  Nothing is
    posted to the webview. *)
Theorem refresh_unsupported_format_throws (rt : Runtime) (dataTable : string)
    (st : State) :
  decoderFor (_fileExtension (this st)) = None →
  ∃ st', refresh rt dataTable st
         = (Throw (TypeError "Cannot read property 'length' of null"), st')
         ∧ posted st' = posted st.
Proof.
  intros Hnone. unfold refresh.
  set (st1 := ((if (0 <? String.length dataTable)%nat
                then assignThis (set_dataTable dataTable) else ret tt) st).2).
  assert (Hext : decoderFor (_fileExtension (this st1)) = None).
  { subst st1. by destruct (0 <? String.length dataTable)%nat. }
  assert (Hposted : posted st1 = posted st).
  { subst st1. by destruct (0 <? String.length dataTable)%nat. }
  destruct (getFileData_no_decoder rt (_fileName (this st1)) st1 Hext)
    as (st2 & Hget & _ & Hposted2 & _).
  exists st2. split; [|congruence].
  unfold bind at 1.
  replace ((if (0 <? String.length dataTable)%nat
            then assignThis (set_dataTable dataTable) else ret tt) st)
    with (Normal tt, st1) by (subst st1; by destruct (0 <? String.length dataTable)%nat).
  unfold bind, getThis, tryCatch. rewrite Hget. reflexivity.
Qed.

Lemma refresh_unsupported_format_throws_witness :
  ∃ st', refresh Sample.runtime "" (Sample.opened "/data/notes.md")
         = (Throw (TypeError "Cannot read property 'length' of null"), st')
         ∧ posted st' = posted (Sample.opened "/data/notes.md").
Proof.
  apply (refresh_unsupported_format_throws Sample.runtime "" (Sample.opened "/data/notes.md")).
  vm_compute. reflexivity.
Defined.

(** ** The companion-file writer *)

Lemma createJsonFile_run (rt : Runtime) (jsonFilePath : string) (jsonData : value)
    (st : State) :
  createJsonFile rt jsonFilePath jsonData st
  = (Normal tt, withFiles (companionWritten rt jsonFilePath jsonData) st).
Proof.
  unfold createJsonFile, bind, existsSync, companionWritten, withFiles. cbn.
  destruct (files st !! jsonFilePath) as [content|] eqn:Hfile.
  - rewrite bool_decide_eq_true_2 by eauto. cbn. by destruct st.
  - rewrite bool_decide_eq_false_2 by (intros [? ?]; done). reflexivity.
Qed.



(** ** The spreadsheet decoder *)

Lemma getExcelData_run (rt : Runtime) (workbook : WorkBook) (st : State)
    (firstSheet : string) (rest : list string) :
  _dataTable (this st) = "" →
  SheetNames workbook = firstSheet :: rest →
  getExcelData rt workbook st
  = (Normal (sheet_to_json (Sheets workbook !! firstSheet)),
     withFiles
       (companionWritten rt
          (Js.replace (fsPath (_uri (this st))) (_fileExtension (this st)) ".json")
          (VArray (sheet_to_json (Sheets workbook !! firstSheet))))
       (if (1 <? List.length (firstSheet :: rest))%nat
        then withThis (set_tableList (firstSheet :: rest)) st else st)).
Proof.
  intros Htable Hnames. unfold getExcelData. rewrite Hnames. unfold bind at 1.
  destruct (1 <? List.length (firstSheet :: rest))%nat;
    unfold assignThis, bind, getThis; cbn -[createJsonFile Js.replace];
    rewrite Htable; cbn -[createJsonFile Js.replace];
    rewrite createJsonFile_run; reflexivity.
Qed.

(** C8, amended.  With no table requested ([_dataTable] empty) the rows
    of the first sheet are returned.  A workbook of more than one sheet
    makes its sheet names the table list; a workbook of one sheet leaves
    the table list as it was, so the list of a workbook read earlier
    stays.  The list is non-empty exactly when there is more than one
    sheet only for a preview whose list was empty before. *)
Theorem getExcelData_first_sheet (rt : Runtime) (workbook : WorkBook) (st : State) :
  _dataTable (this st) = "" →
  (∀ firstSheet, SheetNames workbook !! 0%nat = Some firstSheet →
     (getExcelData rt workbook st).1
     = Normal (sheet_to_json (Sheets workbook !! firstSheet)))
  ∧ _tableList (this (getExcelData rt workbook st).2)
    = (if (1 <? List.length (SheetNames workbook))%nat then SheetNames workbook
       else _tableList (this st))
  ∧ ((1 < List.length (SheetNames workbook))%nat →
     _tableList (this (getExcelData rt workbook st).2) = SheetNames workbook)
  ∧ ((List.length (SheetNames workbook) ≤ 1)%nat →
     _tableList (this (getExcelData rt workbook st).2) = _tableList (this st))
  ∧ (_tableList (this st) = [] →
     (_tableList (this (getExcelData rt workbook st).2) ≠ []
      ↔ (1 < List.length (SheetNames workbook))%nat)).
Proof.
  intros Htable.
  assert (Hlist : _tableList (this (getExcelData rt workbook st).2)
                  = (if (1 <? List.length (SheetNames workbook))%nat
                     then SheetNames workbook else _tableList (this st))).
  { destruct (SheetNames workbook) as [|firstSheet rest] eqn:Hnames.
    - unfold getExcelData. by rewrite Hnames.
    - rewrite (getExcelData_run rt workbook st firstSheet rest Htable Hnames).
      by destruct (1 <? List.length (firstSheet :: rest))%nat. }
  split_and!.
  - intros firstSheet Hfirst.
    destruct (SheetNames workbook) as [|first rest] eqn:Hnames; [done|].
    injection Hfirst as ->.
    by rewrite (getExcelData_run rt workbook st firstSheet rest Htable Hnames).
  - exact Hlist.
  - intros Hlt. apply Nat.ltb_lt in Hlt. by rewrite Hlist, Hlt.
  - intros Hle. apply Nat.ltb_ge in Hle. by rewrite Hlist, Hle.
  - intros Hfresh. rewrite Hlist.
    destruct (1 <? List.length (SheetNames workbook))%nat eqn:Hlt.
    + apply Nat.ltb_lt in Hlt. split; [done|]. intros _ Hnil.
      rewrite Hnil in Hlt. cbn in Hlt. lia.
    + apply Nat.ltb_ge in Hlt. rewrite Hfresh. split; [done|lia].
Qed.

Lemma getExcelData_first_sheet_witness :
  (getExcelData Sample.runtime Sample.ledger (Sample.opened "/data/ledger.xlsx")).1
  = Normal [VObject [("amount", VNumber 10)]]
  ∧ _tableList (this (getExcelData Sample.runtime Sample.ledger
                        (Sample.opened "/data/ledger.xlsx")).2) = ["Q1"; "Q2"].
Proof.
  pose proof (getExcelData_first_sheet Sample.runtime Sample.ledger
                (Sample.opened "/data/ledger.xlsx") eq_refl) as (Hrows & _ & Hlist & _).
  split.
  - apply (Hrows "Q1"). reflexivity.
  - apply Hlist. cbn. lia.
Defined.

(** C8 as stated fails after a workbook of several sheets has been read:
    the ledger is read with its two sheets, then saved with one sheet
    and read again.  The workbook now has one sheet, yet the table list
    still holds the two earlier names, and the message posted for the
    second read carries them. *)
Lemma getExcelData_keeps_earlier_table_list :
  let earlier :=
    (refresh Scenario.runtime "" (Sample.opened "/data/ledger.xlsx")).2 in
  let saved := Scenario.withFile "/data/ledger.xlsx" Scenario.summaryBytes earlier in
  _dataTable (this saved) = ""
  ∧ List.length (SheetNames Scenario.summary) = 1%nat
  ∧ (getExcelData Scenario.runtime Scenario.summary saved).1
    = Normal [VObject [("amount", VNumber 60)]]
  ∧ _tableList (this (getExcelData Scenario.runtime Scenario.summary saved).2)
    = ["Q1"; "Q2"]
  ∧ (refresh Scenario.runtime "" saved).1 = Normal tt
  ∧ last (posted (refresh Scenario.runtime "" saved).2)
    = Some (RefreshCommand
              {| msg_fileName := "ledger.xlsx";
                 msg_uri := "file:///data/ledger.xlsx";
                 msg_config := VObject [];
                 msg_schema := VUndefined;
                 msg_tableList := ["Q1"; "Q2"];
                 msg_table := "";
                 msg_data := DataRows [VObject [("amount", VNumber 60)]] |}).
Proof. vm_compute. split_and!; reflexivity. Qed.


(** ** Running the Avro handlers of the preview *)

Lemma loadData_flat_rows (rows : list (gmap string value)) (st : State) :
  loadData (DataFlatRows rows) st
  = (Normal tt,
     match rows with
     | [] => st
     | _ => (postMessage (refreshMessage (this st) (DataFlatRows rows)) st).2
     end).
Proof. destruct rows; reflexivity. Qed.

Lemma flattenRows_run (rows : list value) (st : State) :
  Forall (fun row => keysThrow row = false) rows →
  flattenRows rows st = (Normal (map flattenObject rows), st).
Proof.
  intros Hrows. unfold flattenRows.
  replace (existsb keysThrow rows) with false; [reflexivity|].
  symmetry. apply not_true_is_false. rewrite existsb_exists.
  intros (row & Hin & Hthrow). rewrite Forall_forall in Hrows.
  apply list_elem_of_In, Hrows in Hin. congruence.
Qed.

Lemma onEnd_files (rt : Runtime) (decode : AvroDecode) (st : State) :
  files (onEnd rt decode st).2
  = companionWritten rt (schemaCompanion (this st)) (dataSchema decode)
      (companionWritten rt (jsonCompanion (this st)) (VArray (dataRows decode))
         (files st)).
Proof.
  unfold onEnd, bind, getThis. cbn -[createJsonFile Js.replace loadData].
  rewrite !createJsonFile_run. unfold flattenRows.
  destruct (existsb keysThrow (dataRows decode)); [reflexivity|].
  cbn -[loadData Js.replace]. rewrite loadData_flat_rows.
  by destruct (map flattenObject (dataRows decode)).
Qed.

Lemma onEnd_run (rt : Runtime) (decode : AvroDecode) (st : State) :
  Forall (fun row => keysThrow row = false) (dataRows decode) →
  ∃ st', onEnd rt decode st = (Normal tt, st')
    ∧ this st' = this st
    ∧ posted st'
      = posted st ++
          match dataRows decode with
          | [] => []
          | _ => [refreshMessage (this st)
                    (DataFlatRows (map flattenObject (dataRows decode)))]
          end.
Proof.
  intros Hrows. unfold onEnd, bind, getThis.
  cbn -[createJsonFile Js.replace loadData flattenRows].
  rewrite !createJsonFile_run, flattenRows_run by done.
  rewrite loadData_flat_rows. eexists. split; [reflexivity|].
  destruct (dataRows decode); cbn; [by rewrite app_nil_r|done].
Qed.

Lemma handleAvroEvents_data (rt : Runtime) (records : list value)
    (events : list AvroEvent) (decode : AvroDecode) :
  handleAvroEvents rt (map OnData records ++ events) decode
  = handleAvroEvents rt events
      {| dataSchema := dataSchema decode; dataRows := dataRows decode ++ records |}.
Proof.
  revert decode. induction records as [|record records IH]; intros decode.
  - cbn. rewrite app_nil_r. by destruct decode.
  - cbn [map app handleAvroEvents]. rewrite IH. cbn. by rewrite <- app_assoc.
Qed.

(** ** Companion files *)




(** ** The content cache of the provider *)

(** C9 fails on the code.  When the cache holds an entry for the path,
    the promise is resolved with the cached content, but the method does
    not return there: the entry is replaced by a new, empty [JsonData]
    and one more decoder is created, whose handlers write to it. *)
Theorem provideTextDocumentContent_cached_decodes_again (uri : Uri) (pv : Provider)
    (cached : nat) (text : string) :
  jsonFileDataMap pv !! Js.stripJsonSuffix (path uri) = Some cached →
  jsonDataObjects pv !! cached = Some text →
  promises (provideTextDocumentContent uri pv).2
    !! (provideTextDocumentContent uri pv).1 = Some (Some text)
  ∧ decodes (provideTextDocumentContent uri pv).2
    = decodes pv ++
        [{| decode_uri := uri;
            decode_dataFilePath := uriString uri;
            decode_jsonData := List.length (jsonDataObjects pv);
            decode_promise := List.length (promises pv);
            decode_dataRows := [];
            decode_dataSchema := VObject [] |}]
  ∧ jsonFileDataMap (provideTextDocumentContent uri pv).2
      !! Js.stripJsonSuffix (path uri)
    = Some (List.length (jsonDataObjects pv))
  ∧ jsonDataObjects (provideTextDocumentContent uri pv).2
      !! List.length (jsonDataObjects pv) = Some "".
Proof.
  intros Hcache Htext. unfold provideTextDocumentContent.
  rewrite Hcache, Htext. cbn.
  rewrite lookup_app_r, Nat.sub_diag by done. cbn.
  split_and!.
  - rewrite list_lookup_insert_eq; [done|]. rewrite length_app. cbn. lia.
  - done.
  - apply lookup_insert_eq.
  - by rewrite lookup_app_r, Nat.sub_diag.
Qed.

Lemma provideTextDocumentContent_cached_decodes_again_witness :
  promises (provideTextDocumentContent Sample.eventsUri Sample.firstRequest).2
    !! (provideTextDocumentContent Sample.eventsUri Sample.firstRequest).1
  = Some (Some "")
  ∧ List.length (decodes (provideTextDocumentContent Sample.eventsUri Sample.firstRequest).2)
    = 2%nat
  ∧ promises (provideTextDocumentContent Sample.eventsUri Sample.schemaSeen).2
      !! (provideTextDocumentContent Sample.eventsUri Sample.schemaSeen).1
    = Some (Some (Sample.stringify Sample.idSchema)).
Proof.
  split_and!.
  - apply (provideTextDocumentContent_cached_decodes_again
             Sample.eventsUri Sample.firstRequest 0%nat "").
    + vm_compute. reflexivity.
    + vm_compute. reflexivity.
  - destruct (provideTextDocumentContent_cached_decodes_again
                Sample.eventsUri Sample.firstRequest 0%nat "") as (_ & Hdecoders & _).
    + vm_compute. reflexivity.
    + vm_compute. reflexivity.
    + rewrite Hdecoders. reflexivity.
  - apply (provideTextDocumentContent_cached_decodes_again
             Sample.eventsUri Sample.schemaSeen 0%nat (Sample.stringify Sample.idSchema)).
    + vm_compute. reflexivity.
    + vm_compute. reflexivity.
Defined.

(** The second decoder of that request writes the schema file once more. *)
Example second_decode_rewrites_companion :
  providerFiles
    (providerOnMetadata Sample.runtime 1 (VObject [])
       (provideTextDocumentContent Sample.eventsUri Sample.schemaSeen).2)
    !! "avro.data.json:/data/events.avro.schema.json.json"
  = Some "{}".
Proof. vm_compute. reflexivity. Qed.

(** ** The Avro decode of the preview *)

Lemma refresh_starts_avro_decode (rt : Runtime) (dataTable : string) (st : State) :
  decoderFor (_fileExtension (this st)) = Some Avro →
  is_Some (files st !! path_join rt (path_dirname rt (fsPath (_uri (this st))))
                         (_fileName (this st))) →
  ∃ st', refresh rt dataTable st = (Normal tt, st')
    ∧ posted st' = posted st
    ∧ fileDecoders st'
      = fileDecoders st ++ [path_join rt (path_dirname rt (fsPath (_uri (this st))))
                              (_fileName (this st))].
Proof.
  intros Havro Hfile.
  unfold refresh, bind, assignThis, getThis, tryCatch, getFileData, bind, getThis,
    existsSync.
  destruct (0 <? String.length dataTable)%nat; cbn [ret fst snd withThis this files
    set_dataTable _fileExtension _uri _fileName];
    rewrite Havro, bool_decide_eq_true_2 by done; cbn; eauto.
Qed.

(** C6, amended.  For a decode whose events are the schema, then the
    rows, then the end, the end handler runs with the schema and all rows
    recorded.  Every record is flattened and, when there is at least one,
    exactly one message is posted, after everything posted before: it
    carries the complete flattened rows (and the preview's own [_schema]
    field, which the decode does not assign).  When no record was
    accumulated nothing is posted.  The schema of the file goes to the
    [.schema.json] companion.  The refresh that starts the decode posts
    nothing itself. *)
Theorem avro_decode_final_publish (rt : Runtime) (type : value)
    (records : list value) (st : State) :
  Forall (fun row => keysThrow row = false) records →
  handleAvroEvents rt (avroStream type records) newAvroDecode
  = onEnd rt {| dataSchema := type; dataRows := records |}
  ∧ (∃ st',
      handleAvroEvents rt (avroStream type records) newAvroDecode st = (Normal tt, st')
      ∧ this st' = this st
      ∧ posted st'
        = posted st ++
            match records with
            | [] => []
            | _ => [refreshMessage (this st) (DataFlatRows (map flattenObject records))]
            end
      ∧ files st'
        = companionWritten rt (schemaCompanion (this st)) type
            (companionWritten rt (jsonCompanion (this st)) (VArray records) (files st)))
  ∧ (∀ dataTable,
       decoderFor (_fileExtension (this st)) = Some Avro →
       is_Some (files st !! path_join rt (path_dirname rt (fsPath (_uri (this st))))
                              (_fileName (this st))) →
       posted (refresh rt dataTable st).2 = posted st).
Proof.
  intros Hrows.
  assert (Hend : handleAvroEvents rt (avroStream type records) newAvroDecode
                 = onEnd rt {| dataSchema := type; dataRows := records |}).
  { unfold avroStream. cbn [handleAvroEvents]. by rewrite handleAvroEvents_data. }
  split_and!; [exact Hend| |].
  - rewrite Hend.
    set (decode := {| dataSchema := type; dataRows := records |}).
    destruct (onEnd_run rt decode st Hrows) as (st' & Hrun & Hthis & Hposted).
    pose proof (onEnd_files rt decode st) as Hfiles. rewrite Hrun in Hfiles.
    exists st'. done.
  - intros dataTable Havro Hfile.
    destruct (refresh_starts_avro_decode rt dataTable st Havro Hfile)
      as (st' & -> & Hposted & _).
    exact Hposted.
Qed.

Lemma avro_decode_final_publish_witness :
  ∃ st',
    handleAvroEvents Sample.runtime (avroStream Sample.idSchema Sample.idRows)
      newAvroDecode (Sample.opened "/data/events.avro")
    = (Normal tt, st')
    ∧ posted st'
      = [refreshMessage (this (Sample.opened "/data/events.avro"))
           (DataFlatRows [{[ "id" := VNumber 1 ]}; {[ "id" := VNumber 2 ]}])].
Proof.
  destruct (avro_decode_final_publish Sample.runtime Sample.idSchema Sample.idRows
              (Sample.opened "/data/events.avro"))
    as (_ & (st' & Hrun & _ & Hposted & _) & _).
  - repeat constructor.
  - exists st'. split; [exact Hrun|]. rewrite Hposted. reflexivity.
Defined.

(** C6 as stated fails: a decode without records posts nothing, and the
    message posted for the two records of the scenario carries no schema
    (the preview's [_schema] is still [undefined]) although the schema of
    the file had arrived. *)
Lemma avro_decode_publish_without_schema :
  posted (handleAvroEvents Sample.runtime (avroStream Sample.idSchema [])
            newAvroDecode (Sample.opened "/data/events.avro")).2 = []
  ∧ posted (handleAvroEvents Sample.runtime (avroStream Sample.idSchema Sample.idRows)
              newAvroDecode (Sample.opened "/data/events.avro")).2
    = [RefreshCommand
         {| msg_fileName := "events.avro";
            msg_uri := "file:///data/events.avro";
            msg_config := VObject [];
            msg_schema := VUndefined;
            msg_tableList := [];
            msg_table := "";
            msg_data := DataFlatRows [{[ "id" := VNumber 1 ]}; {[ "id" := VNumber 2 ]}] |}]
  ∧ Sample.idSchema ≠ VUndefined.
Proof. split_and!; [vm_compute; reflexivity..|discriminate]. Qed.

(** ** Loading a view configuration *)

Section keepsView.
Context (rt : Runtime).

Lemma keepsView_ret {A} (a : A) : keepsView (ret a).
Proof. by intros st. Qed.

Lemma keepsView_throw {A} (e : Error) : keepsView (@throw A e).
Proof. by intros st. Qed.

Lemma keepsView_bind {A B} (m : M A) (k : A → M B) :
  keepsView m → (∀ a, keepsView (k a)) → keepsView (bind m k).
Proof.
  intros Hm Hk st. unfold bind. destruct (Hm st) as [Hc Ht].
  destruct (m st) as [[a|e] st1]; cbn in *; [|done].
  destruct (Hk a st1) as [? ?]. split; congruence.
Qed.

Lemma keepsView_tryCatch {A} (body : M A) (handler : Error → M A) :
  keepsView body → (∀ e, keepsView (handler e)) → keepsView (tryCatch body handler).
Proof.
  intros Hm Hk st. unfold tryCatch. destruct (Hm st) as [Hc Ht].
  destruct (body st) as [[a|e] st1]; cbn in *; [done|].
  destruct (Hk e st1) as [? ?]. split; congruence.
Qed.

Lemma keepsView_getThis : keepsView getThis.
Proof. by intros st. Qed.

Lemma keepsView_existsSync (filePath : string) : keepsView (existsSync filePath).
Proof. by intros st. Qed.

Lemma keepsView_readFileSync (filePath : string) : keepsView (readFileSync filePath).
Proof. intros st. unfold readFileSync. by destruct (files st !! filePath). Qed.

Lemma keepsView_postMessage (message : Message) : keepsView (postMessage message).
Proof. by intros st. Qed.

Lemma keepsView_showErrorMessage (message : string) :
  keepsView (showErrorMessage message).
Proof. by intros st. Qed.

Lemma keepsView_showInformationMessage (message : string) :
  keepsView (showInformationMessage message).
Proof. by intros st. Qed.

Lemma keepsView_createFileDecoder (dataFilePath : string) :
  keepsView (createFileDecoder dataFilePath).
Proof. by intros st. Qed.

Lemma keepsView_set_tableList (names : list string) :
  keepsView (assignThis (set_tableList names)).
Proof. by intros st. Qed.

Lemma keepsView_set_schema (schema : value) :
  keepsView (assignThis (set_schema schema)).
Proof. by intros st. Qed.

Lemma keepsView_createJsonFile (jsonFilePath : string) (jsonData : value) :
  keepsView (createJsonFile rt jsonFilePath jsonData).
Proof. intros st. by rewrite createJsonFile_run. Qed.

End keepsView.

Create HintDb view.
#[export] Hint Resolve keepsView_ret keepsView_throw keepsView_getThis
  keepsView_existsSync keepsView_readFileSync keepsView_postMessage
  keepsView_showErrorMessage keepsView_showInformationMessage
  keepsView_createFileDecoder keepsView_set_tableList keepsView_set_schema
  keepsView_createJsonFile : view.

(** Splits a computation along its binds, handlers and case analyses. *)
Ltac keeps_view :=
  repeat first
    [ solve [auto with view]
    | apply keepsView_bind; [|intros ?]
    | apply keepsView_tryCatch; [|intros ?]
    | match goal with
      | |- keepsView (match ?x with _ => _ end) => destruct x
      | |- keepsView (if ?b then _ else _) => destruct b
      end ].

Lemma keepsView_loadData (data : Data) : keepsView (loadData data).
Proof. unfold loadData. destruct data; cbn [dataLength]; keeps_view. Qed.

Lemma keepsView_getExcelData (rt : Runtime) (workbook : WorkBook) :
  keepsView (getExcelData rt workbook).
Proof. unfold getExcelData. keeps_view. Qed.

#[export] Hint Resolve keepsView_getExcelData : view.

Lemma keepsView_getFileData (rt : Runtime) (filePath : string) :
  keepsView (getFileData rt filePath).
Proof.
  unfold getFileData, getBinaryExcelData, getTextExcelData, readWorkBook,
    getArrowData, getAvroData.
  keeps_view.
Qed.

#[export] Hint Resolve keepsView_loadData keepsView_getFileData : view.

Lemma keepsView_after_table (rt : Runtime) :
  keepsView
    (do self <- getThis;
     do data <-
       tryCatch (getFileData rt (_fileName self))
         (fun error => postMessage (ErrorReport error) ;; ret (DataRows []));
     loadData data).
Proof. keeps_view. Qed.

Lemma refresh_current_table (rt : Runtime) (st : State) :
  _config (this (refresh rt (_dataTable (this st)) st).2) = _config (this st)
  ∧ _dataTable (this (refresh rt (_dataTable (this st)) st).2) = _dataTable (this st).
Proof.
  unfold refresh. unfold bind at 1.
  destruct (0 <? String.length (_dataTable (this st)))%nat; cbn [assignThis ret].
  - destruct (keepsView_after_table rt
                (withThis (set_dataTable (_dataTable (this st))) st)) as [Hc Ht].
    split; [exact Hc|exact Ht].
  - apply (keepsView_after_table rt st).
Qed.

(** C7, amended.  A configuration is taken to match when the text of its
    [dataFileName] occurs somewhere in the path of the open document.
    When it does not, an error message is shown and the preview, the
    disk and the webview are left as they were; when it does, [config]
    and [dataTable] (empty when absent) are adopted and survive the
    refresh that follows. *)
Theorem loadConfig_matches_by_containment (rt : Runtime) (configFile : Uri)
    (others : list Uri) (text : string) (viewConfig : ViewConfig) (st : State) :
  files st !! fsPath configFile = Some text →
  JSON_parse rt text = Some viewConfig →
  ((Js.indexOf (fsPath (_uri (this st))) (toText (dataFileName viewConfig)) < 0)%Z →
   loadConfig rt (Some (configFile :: others)) st
   = (Normal tt,
      (showErrorMessage
         ("Config data file '" ++ toText (dataFileName viewConfig)
            ++ "' doesn't match '" ++ _fileName (this st) ++ "'!")%string st).2)
   ∧ this (loadConfig rt (Some (configFile :: others)) st).2 = this st)
  ∧ ((0 ≤ Js.indexOf (fsPath (_uri (this st))) (toText (dataFileName viewConfig)))%Z →
     loadConfig rt (Some (configFile :: others)) st
     = refresh rt (default "" (dataTable viewConfig))
         (withThis (set_dataTable (default "" (dataTable viewConfig)))
            (withThis (set_config (config viewConfig)) st))
     ∧ _config (this (loadConfig rt (Some (configFile :: others)) st).2)
       = config viewConfig
     ∧ _dataTable (this (loadConfig rt (Some (configFile :: others)) st).2)
       = default "" (dataTable viewConfig)).
Proof.
  intros Hfile Hparse.
  assert (Hread : readFileSync (fsPath configFile) st = (Normal text, st)).
  { unfold readFileSync. by rewrite Hfile. }
  split.
  - intros Hno. apply Z.leb_gt in Hno.
    unfold loadConfig, bind. rewrite Hread, Hparse. cbn [getThis].
    rewrite Hno. done.
  - intros Hyes. apply Z.leb_le in Hyes.
    set (st2 := withThis (set_dataTable (default "" (dataTable viewConfig)))
                  (withThis (set_config (config viewConfig)) st)).
    assert (Hrun : loadConfig rt (Some (configFile :: others)) st
                   = refresh rt (_dataTable (this st2)) st2).
    { unfold loadConfig, bind. rewrite Hread, Hparse. cbn [getThis].
      rewrite Hyes. subst st2. by destruct (dataTable viewConfig). }
    split; [exact Hrun|].
    rewrite Hrun. destruct (refresh_current_table rt st2) as [Hc Ht].
    split; [exact Hc|exact Ht].
Qed.

Lemma loadConfig_matches_by_containment_witness :
  this (loadConfig Sample.runtime (Some [Sample.fileUri "/data/sales.config"])
          (Sample.opened "/data/ledger.xlsx")).2
  = this (Sample.opened "/data/ledger.xlsx")
  ∧ _config (this (loadConfig Sample.runtime (Some [Sample.fileUri "/data/sales.config"])
                     (Sample.opened "/data/sales.csv")).2)
    = VObject [("plugin", VString "grid")].
Proof.
  split.
  - apply (loadConfig_matches_by_containment Sample.runtime
             (Sample.fileUri "/data/sales.config") [] Sample.salesConfigText
             Sample.salesConfig (Sample.opened "/data/ledger.xlsx")).
    + vm_compute. reflexivity.
    + vm_compute. reflexivity.
    + vm_compute. reflexivity.
  - apply (loadConfig_matches_by_containment Sample.runtime
             (Sample.fileUri "/data/sales.config") [] Sample.salesConfigText
             Sample.salesConfig (Sample.opened "/data/sales.csv")).
    + vm_compute. reflexivity.
    + vm_compute. reflexivity.
    + vm_compute. discriminate.
Defined.

(** C7 as stated fails: the configuration saved for [sales.csv] is loaded
    into the preview of [2019-sales.csv].  The names differ, yet no error
    is shown and the configuration replaces the one in use. *)
Lemma loadConfig_accepts_other_file_name :
  dataFileName Sample.salesConfig = Some "sales.csv"
  ∧ _fileName (this (Sample.opened "/data/2019-sales.csv")) = "2019-sales.csv"
  ∧ _config (this (Sample.opened "/data/2019-sales.csv")) = VObject []
  ∧ _config (this (loadConfig Sample.runtime (Some [Sample.fileUri "/data/sales.config"])
                     (Sample.opened "/data/2019-sales.csv")).2)
    = VObject [("plugin", VString "grid")]
  ∧ errorMessages (loadConfig Sample.runtime (Some [Sample.fileUri "/data/sales.config"])
                     (Sample.opened "/data/2019-sales.csv")).2 = [].
Proof. vm_compute. auto. Qed.

(** * Further properties *)

(** ** Strings *)

Lemma string_app_cons (c : ascii) (s t : string) :
  (String c s ++ t)%string = String c (s ++ t).
Proof. reflexivity. Qed.

Lemma string_app_empty_l (t : string) : ("" ++ t)%string = t.
Proof. reflexivity. Qed.

(** Unfolds appends to a string built from a character or to the empty
    string. *)
Ltac string_app := rewrite ?string_app_cons, ?string_app_empty_l; simpl.

Lemma string_length_app (s t : string) :
  String.length (s ++ t) = (String.length s + String.length t)%nat.
Proof. induction s as [|c s IH]; string_app; [done|]. by f_equal. Qed.

Lemma substring_zero_length (n : nat) (s : string) : String.substring n 0 s = "".
Proof. revert n. induction s as [|c s IH]; intros [|n]; simpl; auto. Qed.

Lemma substring_whole (s : string) : String.substring 0 (String.length s) s = s.
Proof. induction s as [|c s IH]; simpl; [done|]. by f_equal. Qed.

Lemma substring_app_skip (s t : string) (n m : nat) :
  String.substring (String.length s + n) m (s ++ t) = String.substring n m t.
Proof. induction s as [|c s IH]; string_app; [done|]. apply IH. Qed.

Lemma substring_app_prefix (s t : string) :
  String.substring 0 (String.length s) (s ++ t) = s.
Proof.
  induction s as [|c s IH]; string_app; [apply substring_zero_length|]. by f_equal.
Qed.

Lemma get_app_skip (s t : string) (n : nat) :
  String.get (String.length s + n) (s ++ t) = String.get n t.
Proof. induction s as [|c s IH]; string_app; [done|]. apply IH. Qed.

Lemma string_app_assoc (s t u : string) : ((s ++ t) ++ u = s ++ (t ++ u))%string.
Proof. induction s as [|c s IH]; string_app; [done|]. by f_equal. Qed.

Lemma string_app_empty_r (s : string) : (s ++ "")%string = s.
Proof. induction s as [|c s IH]; string_app; [done|]. by f_equal. Qed.

(** [s.substr(n)] drops the first [n] characters. *)
Lemma substr_app (s t : string) :
  Js.substr (s ++ t) (Z.of_nat (String.length s)) = t.
Proof.
  unfold Js.substr. rewrite string_length_app.
  destruct (Z.ltb_spec (Z.of_nat (String.length s)) 0) as [?|_]; [lia|].
  rewrite Z.min_l by lia. rewrite Nat2Z.id.
  replace (Z.to_nat _) with (String.length t) by lia.
  rewrite <- (Nat.add_0_r (String.length s)), substring_app_skip.
  apply substring_whole.
Qed.

(** [s.substr(-1)] is the last character. *)
Lemma substr_last (s : string) (c : ascii) :
  Js.substr (s ++ String c "") (-1) = String c "".
Proof.
  unfold Js.substr. rewrite string_length_app. cbn [String.length Z.ltb Z.compare].
  rewrite Z.max_l by lia.
  replace (Z.to_nat (Z.of_nat (String.length s + 1) + -1)) with (String.length s + 0)%nat
    by lia.
  replace (Z.to_nat _) with 1%nat by lia.
  by rewrite substring_app_skip.
Qed.

(** A string pattern replaced at its first occurrence. *)
Lemma replace_first (before pattern after replacement : string) :
  String.index 0 pattern (before ++ pattern ++ after) = Some (String.length before) →
  Js.replace (before ++ pattern ++ after) pattern replacement
  = (before ++ replacement ++ after)%string.
Proof.
  intros Hindex. unfold Js.replace. rewrite Hindex.
  rewrite substring_app_prefix. f_equal. f_equal.
  rewrite <- string_app_assoc.
  replace (String.length before + String.length pattern)%nat
    with (String.length (before ++ pattern) + 0)%nat
    by (rewrite string_length_app; lia).
  rewrite substring_app_skip, !string_length_app.
  replace (_ - _)%nat with (String.length after) by lia.
  apply substring_whole.
Qed.

(** ** The last dot of a file name *)

Lemma lastOccurrence_absent (c : ascii) (s : string) :
  c ∉ list_ascii_of_string s → Js.lastOccurrence (String c "") s = None.
Proof.
  induction s as [|a s IH]; intros Hnot; simpl; [done|].
  simpl in Hnot. apply not_elem_of_cons in Hnot as [Hne Hnot].
  rewrite (IH Hnot). by destruct (ascii_dec c a).
Qed.

Lemma lastOccurrence_last (c : ascii) (stem rest : string) :
  c ∉ list_ascii_of_string rest →
  Js.lastOccurrence (String c "") (stem ++ String c rest) = Some (String.length stem).
Proof.
  intros Hnot. induction stem as [|a stem IH]; string_app.
  - rewrite (lastOccurrence_absent c rest Hnot).
    destruct (ascii_dec c c); [|done]. by destruct rest.
  - by rewrite IH.
Qed.

Lemma substring_length_le (n m : nat) (s : string) :
  (String.length (String.substring n m s) ≤ m)%nat.
Proof.
  revert n m. induction s as [|c s IH]; intros [|n] [|m]; simpl; try lia.
  - specialize (IH 0%nat m). lia.
  - apply IH.
  - apply IH.
Qed.

Lemma lastIndexOf_absent (c : ascii) (s : string) :
  c ∉ list_ascii_of_string s → Js.lastIndexOf s (String c "") = (-1)%Z.
Proof. intros Hnot. unfold Js.lastIndexOf. by rewrite lastOccurrence_absent. Qed.

Lemma decoderFor_short (fileExtension : string) :
  (String.length fileExtension ≤ 1)%nat → decoderFor fileExtension = None.
Proof.
  intros Hshort. destruct (decoderFor fileExtension) as [decoder|] eqn:Hd; [|done].
  apply decoderFor_Some, list_elem_of_In in Hd. cbn in Hd.
  repeat (destruct Hd as [[= <- <-]|Hd]; [cbn in Hshort; lia|]). destruct Hd.
Qed.

(** ** The file extension taken by the constructor *)

(** X1.  When the file name ends in a dot followed by dot-free text, the
    extension the preview keeps is that last dot and the text after it,
    whatever precedes (other dots included). *)
Theorem fileExtension_from_last_dot (rt : Runtime) (uri : Uri) (viewConfig : value)
    (stem rest : string) :
  path_basename rt (fsPath uri) = (stem ++ "." ++ rest)%string →
  "."%char ∉ list_ascii_of_string rest →
  _fileName (newDataPreview rt uri viewConfig) = (stem ++ "." ++ rest)%string
  ∧ _fileExtension (newDataPreview rt uri viewConfig) = ("." ++ rest)%string.
Proof.
  intros Hname Hrest. unfold newDataPreview. cbn [_fileName _fileExtension].
  rewrite Hname. split; [done|].
  unfold Js.lastIndexOf.
  change ("." ++ rest)%string with (String "."%char rest).
  rewrite (lastOccurrence_last "."%char stem rest Hrest).
  apply substr_app.
Qed.

Lemma fileExtension_from_last_dot_witness :
  _fileExtension (newDataPreview Sample.runtime (Sample.fileUri "/data/a.b.json") VNull)
  = ".json".
Proof.
  apply (fileExtension_from_last_dot Sample.runtime (Sample.fileUri "/data/a.b.json")
           VNull "a.b" "json").
  - vm_compute. reflexivity.
  - not_among.
Defined.

(** X2.  A file name without a dot has no extension to speak of: the
    preview keeps its last character (nothing for an empty name), no
    decoder is selected for it and [getFileData] returns no data. *)
Theorem fileName_without_dot_not_decoded (rt : Runtime) (uri : Uri) (viewConfig : value) :
  "."%char ∉ list_ascii_of_string (path_basename rt (fsPath uri)) →
  (∀ init c, path_basename rt (fsPath uri) = (init ++ String c "")%string →
     _fileExtension (newDataPreview rt uri viewConfig) = String c "")
  ∧ (String.length (_fileExtension (newDataPreview rt uri viewConfig)) ≤ 1)%nat
  ∧ decoderFor (_fileExtension (newDataPreview rt uri viewConfig)) = None
  ∧ (∀ filePath st,
       this st = newDataPreview rt uri viewConfig →
       (getFileData rt filePath st).1 = Normal DataNull).
Proof.
  intros Hnodot.
  assert (Hext : _fileExtension (newDataPreview rt uri viewConfig)
                 = Js.substr (path_basename rt (fsPath uri)) (-1)).
  { unfold newDataPreview. cbn [_fileExtension]. by rewrite lastIndexOf_absent. }
  assert (Hshort : (String.length (_fileExtension (newDataPreview rt uri viewConfig))
                    ≤ 1)%nat).
  { rewrite Hext. unfold Js.substr.
    etransitivity; [apply substring_length_le|].
    destruct (String.length (path_basename rt (fsPath uri))); cbn; lia. }
  split_and!.
  - intros init c Hname. rewrite Hext, Hname. apply substr_last.
  - exact Hshort.
  - by apply decoderFor_short.
  - intros filePath st Hthis.
    destruct (getFileData_no_decoder rt filePath st) as (st' & -> & _); [|done].
    rewrite Hthis. by apply decoderFor_short.
Qed.

Lemma fileName_without_dot_not_decoded_witness :
  _fileExtension (newDataPreview Sample.runtime (Sample.fileUri "/data/README") VNull)
  = "E"
  ∧ decoderFor
      (_fileExtension (newDataPreview Sample.runtime (Sample.fileUri "/data/README") VNull))
    = None.
Proof.
  destruct (fileName_without_dot_not_decoded Sample.runtime
              (Sample.fileUri "/data/README") VNull) as (Hlast & _ & Hnone & _).
  - not_among.
  - split; [|exact Hnone]. apply (Hlast "READM" "E"%char). vm_compute. reflexivity.
Defined.

(** ** Companion paths *)

(** X3.  The companion files take the path of the source file with the
    first occurrence of the extension text replaced by [.json] or
    [.schema.json]; what follows that occurrence is kept.  When the
    extension first occurs at the end of the path, the companions are the
    path with its extension exchanged. *)
Theorem companion_paths_replace_first_extension (self : DataPreview)
    (before after : string) :
  fsPath (_uri self) = (before ++ _fileExtension self ++ after)%string →
  String.index 0 (_fileExtension self) (fsPath (_uri self))
  = Some (String.length before) →
  jsonCompanion self = (before ++ ".json" ++ after)%string
  ∧ schemaCompanion self = (before ++ ".schema.json" ++ after)%string.
Proof.
  intros Hpath Hindex. unfold jsonCompanion, schemaCompanion.
  rewrite Hpath in *. split; by apply replace_first.
Qed.

Lemma companion_paths_replace_first_extension_witness :
  jsonCompanion (this (Sample.opened "/data/events.avro")) = "/data/events.json"
  ∧ schemaCompanion (this (Sample.opened "/data/events.avro")) = "/data/events.schema.json"
  ∧ jsonCompanion (this (Sample.opened "/data.csv/data.csv")) = "/data.json/data.csv".
Proof.
  destruct (companion_paths_replace_first_extension
              (this (Sample.opened "/data/events.avro")) "/data/events" "")
    as [Hjson Hschema]; [vm_compute; reflexivity..|].
  destruct (companion_paths_replace_first_extension
              (this (Sample.opened "/data.csv/data.csv")) "/data" "/data.csv")
    as [Hearly _]; [vm_compute; reflexivity..|].
  split_and!.
  - rewrite Hjson. reflexivity.
  - rewrite Hschema. reflexivity.
  - rewrite Hearly. reflexivity.
Defined.

(** ** The cache key of the provider *)

Lemma stripJsonSuffix_any (stem : string) (c : ascii) :
  Js.isLineTerminator c = false →
  Js.stripJsonSuffix (stem ++ String c "json") = stem.
Proof.
  intros Hc. unfold Js.stripJsonSuffix. rewrite string_length_app.
  cbn [String.length].
  replace (5 <=? String.length stem + 5)%nat with true
    by (symmetry; apply Nat.leb_le; lia).
  replace (String.length stem + 5 - 5)%nat with (String.length stem + 0)%nat by lia.
  replace (String.length stem + 5 - 4)%nat with (String.length stem + 1)%nat by lia.
  rewrite get_app_skip, substring_app_skip. cbn [String.get String.substring].
  rewrite Hc. cbn [negb andb String.eqb Ascii.eqb Bool.eqb].
  rewrite Nat.add_0_r. apply substring_app_prefix.
Qed.

(** X4.  The cache key is the path without its last five characters
    whenever the path ends in [json] after any character that is not a
    line terminator, a dot or not; otherwise it is the path itself.  So
    a request for [stem.json] and one for [stem] followed by another
    character and [json] meet in one cache entry. *)
Theorem cache_key_ignores_character_before_json (stem : string) (c : ascii) :
  Js.isLineTerminator c = false →
  Js.stripJsonSuffix (stem ++ String c "json") = stem
  ∧ (∀ otherPath,
       String.substring (String.length otherPath - 4) 4 otherPath ≠ "json" →
       Js.stripJsonSuffix otherPath = otherPath)
  ∧ (∀ uri1 uri2 pv,
       path uri1 = (stem ++ ".json")%string →
       path uri2 = (stem ++ String c "json")%string →
       jsonFileDataMap (provideTextDocumentContent uri1 pv).2
         !! Js.stripJsonSuffix (path uri2)
       = Some (List.length (jsonDataObjects pv))).
Proof.
  intros Hc. split_and!.
  - by apply stripJsonSuffix_any.
  - intros otherPath Hnot. unfold Js.stripJsonSuffix.
    destruct (5 <=? String.length otherPath)%nat; [|done].
    destruct (String.get _ otherPath); [|done].
    destruct (String.eqb_spec (String.substring (String.length otherPath - 4) 4 otherPath)
                "json") as [Heq|_]; [done|].
    by rewrite andb_false_r.
  - intros uri1 uri2 pv Hpath1 Hpath2. rewrite Hpath2, stripJsonSuffix_any by done.
    unfold provideTextDocumentContent. rewrite Hpath1.
    change (stem ++ ".json")%string with (stem ++ String "."%char "json")%string.
    rewrite stripJsonSuffix_any by done.
    destruct (jsonFileDataMap pv !! stem); cbn; apply lookup_insert_eq.
Qed.

Lemma cache_key_ignores_character_before_json_witness :
  Js.stripJsonSuffix "/data/events.avro-json" = "/data/events.avro"
  ∧ Js.stripJsonSuffix "/data/events.avro" = "/data/events.avro".
Proof.
  destruct (cache_key_ignores_character_before_json "/data/events.avro" "-"%char eq_refl)
    as (Hstrip & Hsame & _).
  split; [exact Hstrip|]. apply Hsame. vm_compute. discriminate.
Defined.

(** ** What flattening loses *)

Lemma size_list_to_map_le (fields : list (string * value)) :
  (size (list_to_map fields : gmap string value) ≤ List.length fields)%nat
  ∧ (size (list_to_map fields : gmap string value) = List.length fields →
     NoDup fields.*1).
Proof.
  induction fields as [|[key v] fields [IHle IHeq]]; cbn [list_to_map foldr uncurry].
  - split; [by rewrite map_size_empty|constructor].
  - cbn [List.length fmap list_fmap fst]. rewrite map_size_insert.
    destruct (list_to_map fields !! key) as [w|] eqn:Hkey; cbn [id].
    + split; [lia|]. intros Heq. lia.
    + split; [lia|]. intros Heq. constructor; [|apply IHeq; lia].
      by apply not_elem_of_list_to_map in Hkey.
Qed.

(** X5.  The flattened record never has more fields than the record has
    leaves, and it has as many exactly when no two leaves share a name:
    with a name used twice, at any depth, a value is lost. *)
Theorem flattenObject_lossless_iff_distinct_leaves (obj : value) :
  (size (flattenObject obj) ≤ List.length (leafFields obj))%nat
  ∧ (size (flattenObject obj) = List.length (leafFields obj)
     ↔ NoDup (leafFields obj).*1).
Proof.
  rewrite flattenObject_lastWins. unfold lastWins.
  destruct (size_list_to_map_le (reverse (leafFields obj))) as [Hle Heq].
  rewrite length_reverse in *. split; [exact Hle|]. split.
  - intros Hsize. apply Heq in Hsize.
    by rewrite fmap_reverse, reverse_Permutation in Hsize.
  - intros Hnd. rewrite map_size_list_to_map, length_reverse; [done|].
    by rewrite fmap_reverse, reverse_Permutation.
Qed.

Example flattenObject_loses_shadowed_leaf :
  List.length (leafFields Sample.nestedRow) = 7%nat
  ∧ size (flattenObject Sample.nestedRow) = 6%nat.
Proof. vm_compute. auto. Qed.

(** ** Running [refresh] *)

Lemma requestedTable_fields (dataTable : string) (st : State) :
  _uri (this (requestedTable dataTable st)) = _uri (this st)
  ∧ _fileName (this (requestedTable dataTable st)) = _fileName (this st)
  ∧ _fileExtension (this (requestedTable dataTable st)) = _fileExtension (this st)
  ∧ _config (this (requestedTable dataTable st)) = _config (this st)
  ∧ _schema (this (requestedTable dataTable st)) = _schema (this st)
  ∧ _tableList (this (requestedTable dataTable st)) = _tableList (this st)
  ∧ _dataTable (this (requestedTable dataTable st))
    = (if (0 <? String.length dataTable)%nat then dataTable else _dataTable (this st))
  ∧ files (requestedTable dataTable st) = files st
  ∧ posted (requestedTable dataTable st) = posted st
  ∧ errorMessages (requestedTable dataTable st) = errorMessages st.
Proof. unfold requestedTable. by destruct (0 <? String.length dataTable)%nat. Qed.

Lemma refresh_run (rt : Runtime) (dataTable : string) (st : State) :
  refresh rt dataTable st
  = (do self <- getThis;
     do data <-
       tryCatch (getFileData rt (_fileName self))
         (fun error => postMessage (ErrorReport error) ;; ret (DataRows []));
     loadData data) (requestedTable dataTable st).
Proof.
  unfold refresh, requestedTable. unfold bind at 1.
  by destruct (0 <? String.length dataTable)%nat.
Qed.

Lemma getFileData_present (rt : Runtime) (st : State) (bytes : string) :
  files st !! dataFilePathOf rt (this st) = Some bytes →
  getFileData rt (_fileName (this st)) st
  = match decoderFor (_fileExtension (this st)) with
    | Some Passthrough =>
        do text <- readFileSync (dataFilePathOf rt (this st)); ret (DataText text)
    | Some BinarySpreadsheet =>
        do rows <- getBinaryExcelData rt (dataFilePathOf rt (this st)); ret (DataRows rows)
    | Some TextSpreadsheet =>
        do rows <- getTextExcelData rt (dataFilePathOf rt (this st)); ret (DataRows rows)
    | Some Columnar =>
        do rows <- getArrowData rt (dataFilePathOf rt (this st)); ret (DataRows rows)
    | Some Avro =>
        do rows <- getAvroData (dataFilePathOf rt (this st)); ret (DataRows rows)
    | Some ParquetPending =>
        showInformationMessage "Parquet data format support coming soon!" ;;
        ret DataNull
    | None => ret DataNull
    end st.
Proof.
  intros Hfile. unfold getFileData, dataFilePathOf in *.
  unfold bind at 1. cbn [getThis]. unfold bind at 1. unfold existsSync.
  rewrite bool_decide_eq_true_2 by eauto. reflexivity.
Qed.

(** X6.  Whatever becomes of the load, [refresh] leaves the view
    configuration alone, and the table it is asked for stays selected:
    a call without a table keeps the table selected before. *)
Theorem refresh_keeps_config_and_selects_table (rt : Runtime) (dataTable : string)
    (st : State) :
  _config (this (refresh rt dataTable st).2) = _config (this st)
  ∧ _dataTable (this (refresh rt dataTable st).2)
    = (if (0 <? String.length dataTable)%nat then dataTable else _dataTable (this st)).
Proof.
  rewrite refresh_run.
  destruct (keepsView_after_table rt (requestedTable dataTable st)) as [Hc Ht].
  destruct (requestedTable_fields dataTable st) as (_ & _ & _ & Hc' & _ & _ & Ht' & _).
  split; congruence.
Qed.

Lemma getFileData_absent (rt : Runtime) (st : State) :
  files st !! dataFilePathOf rt (this st) = None →
  getFileData rt (_fileName (this st)) st
  = (Normal DataNull,
     (showErrorMessage (_fileName (this st) ++ " doesn't exist!")%string st).2).
Proof.
  intros Hfile. unfold getFileData, dataFilePathOf in *.
  unfold bind at 1. cbn [getThis]. unfold bind at 1. unfold existsSync.
  rewrite bool_decide_eq_false_2 by (rewrite Hfile; by intros [? ?]). reflexivity.
Qed.

Lemma requestedTable_file (rt : Runtime) (dataTable : string) (st : State) :
  files (requestedTable dataTable st)
    !! dataFilePathOf rt (this (requestedTable dataTable st))
  = files st !! dataFilePathOf rt (this st).
Proof. unfold requestedTable. by destruct (0 <? String.length dataTable)%nat. Qed.

(** X7.  When the file of the preview is missing, [refresh] shows
    [<file name> doesn't exist!], reads and posts nothing, and ends with
    the TypeError of [loadData] on [null], whatever the extension. *)
Theorem refresh_missing_file (rt : Runtime) (dataTable : string) (st : State) :
  files st !! dataFilePathOf rt (this st) = None →
  ∃ st',
    refresh rt dataTable st
    = (Throw (TypeError "Cannot read property 'length' of null"), st')
    ∧ errorMessages st'
      = errorMessages st ++ [(_fileName (this st) ++ " doesn't exist!")%string]
    ∧ posted st' = posted st
    ∧ files st' = files st.
Proof.
  intros Hfile. rewrite refresh_run.
  destruct (requestedTable_fields dataTable st)
    as (_ & Hname & _ & _ & _ & _ & _ & Hfiles & Hposted & Herrors).
  pose proof (requestedTable_file rt dataTable st) as Hsame. rewrite Hfile in Hsame.
  unfold bind, getThis, tryCatch. rewrite (getFileData_absent rt _ Hsame).
  eexists. split; [reflexivity|]. cbn. rewrite Hname, Hfiles, Hposted, Herrors. done.
Qed.

Lemma refresh_missing_file_witness :
  ∃ st',
    refresh Sample.runtime "" Scenario.removed
    = (Throw (TypeError "Cannot read property 'length' of null"), st')
    ∧ errorMessages st' = ["removed.csv doesn't exist!"].
Proof.
  destruct (refresh_missing_file Sample.runtime "" Scenario.removed)
    as (st' & Hrun & Herrors & _).
  - vm_compute. reflexivity.
  - exists st'. split; [exact Hrun|]. rewrite Herrors. reflexivity.
Defined.

(** X8.  For a text format ([.csv], [.tsv], [.txt], [.tab], [.json]) whose
    file is present, [refresh] posts the text of the file as it is, in
    one message that carries the current configuration and table; for an
    empty file it posts nothing.  The preview, apart from the requested
    table, and the disk are unchanged. *)
Theorem refresh_posts_text_file (rt : Runtime) (dataTable : string) (st : State)
    (text : string) :
  decoderFor (_fileExtension (this st)) = Some Passthrough →
  files st !! dataFilePathOf rt (this st) = Some text →
  ∃ st',
    refresh rt dataTable st = (Normal tt, st')
    ∧ this st' = this (requestedTable dataTable st)
    ∧ files st' = files st
    ∧ posted st'
      = posted st ++
          (if String.eqb text "" then []
           else [refreshMessage (this (requestedTable dataTable st)) (DataText text)]).
Proof.
  intros Hdecoder Hfile. rewrite refresh_run.
  destruct (requestedTable_fields dataTable st)
    as (_ & _ & Hext & _ & _ & _ & _ & Hfiles & Hposted & _).
  pose proof (requestedTable_file rt dataTable st) as Hsame. rewrite Hfile in Hsame.
  unfold bind at 1. cbn [getThis]. unfold bind at 1. unfold tryCatch.
  rewrite (getFileData_present rt _ text Hsame), Hext, Hdecoder.
  unfold bind at 1. unfold readFileSync. rewrite Hsame. cbn [ret].
  destruct text as [|c text].
  - eexists. split; [reflexivity|]. rewrite app_nil_r. done.
  - eexists. split; [reflexivity|]. cbn. rewrite Hfiles, Hposted. done.
Qed.

Lemma refresh_posts_text_file_witness :
  ∃ st',
    refresh Sample.runtime "" (Sample.opened "/data/sales.csv") = (Normal tt, st')
    ∧ posted st'
      = [refreshMessage (this (Sample.opened "/data/sales.csv")) (DataText "id,amount")].
Proof.
  destruct (refresh_posts_text_file Sample.runtime "" (Sample.opened "/data/sales.csv")
              "id,amount") as (st' & Hrun & _ & _ & Hposted).
  - vm_compute. reflexivity.
  - vm_compute. reflexivity.
  - exists st'. split; [exact Hrun|]. rewrite Hposted. reflexivity.
Defined.

Example refresh_empty_text_file :
  refresh Sample.runtime "" Scenario.emptyText = (Normal tt, Scenario.emptyText).
Proof. vm_compute. reflexivity. Qed.

(** ** Spreadsheets *)

Lemma getExcelData_selected (rt : Runtime) (workbook : WorkBook) (st : State)
    (firstSheet : string) (rest : list string) :
  SheetNames workbook = firstSheet :: rest →
  let tableList :=
    if (1 <? List.length (firstSheet :: rest))%nat then firstSheet :: rest
    else _tableList (this st) in
  let sheetName := selectedSheet (this st) firstSheet in
  let dataRows := sheet_to_json (Sheets workbook !! sheetName) in
  getExcelData rt workbook st
  = (Normal dataRows,
     withFiles
       (companionWritten rt (sheetCompanion (this st) tableList sheetName)
          (VArray dataRows))
       (withThis (set_tableList tableList) st)).
Proof.
  intros Hnames. cbv zeta. unfold getExcelData. rewrite Hnames. unfold bind at 1.
  unfold selectedSheet, sheetCompanion, jsonCompanion.
  destruct (1 <? List.length (firstSheet :: rest))%nat;
    unfold assignThis, bind, getThis; cbn -[createJsonFile Js.replace];
    rewrite createJsonFile_run; destruct st as [[] ? ? ? ? ?]; reflexivity.
Qed.

Lemma readWorkBook_run (rt : Runtime) (type : WorkBookType) (filePath bytes : string)
    (st : State) :
  files st !! filePath = Some bytes →
  readWorkBook rt type filePath st
  = match xlsx_read rt type bytes with
    | Some workbook => (Normal workbook, st)
    | None => (Throw (ParseError "xlsx.readFile"), st)
    end.
Proof.
  intros Hfile. unfold readWorkBook, bind, readFileSync. rewrite Hfile.
  by destruct (xlsx_read rt type bytes).
Qed.

(** The spreadsheet branch of [getFileData]. *)
Lemma getFileData_spreadsheet (rt : Runtime) (st : State) (bytes : string)
    (decoder : Decoder) (type : WorkBookType) :
  (decoder = BinarySpreadsheet ∧ type = BinaryWorkBook)
  ∨ (decoder = TextSpreadsheet ∧ type = FileWorkBook) →
  decoderFor (_fileExtension (this st)) = Some decoder →
  files st !! dataFilePathOf rt (this st) = Some bytes →
  getFileData rt (_fileName (this st)) st
  = match xlsx_read rt type bytes with
    | Some workbook => (do rows <- getExcelData rt workbook; ret (DataRows rows)) st
    | None => (Throw (ParseError "xlsx.readFile"), st)
    end.
Proof.
  intros Hkind Hdecoder Hfile.
  rewrite (getFileData_present rt st bytes Hfile), Hdecoder.
  destruct Hkind as [[-> ->]|[-> ->]];
    unfold getBinaryExcelData, getTextExcelData; unfold bind at 1; unfold bind at 1;
    rewrite (readWorkBook_run rt _ _ bytes st Hfile);
    by destruct (xlsx_read rt _ bytes).
Qed.

(** X9.  A spreadsheet file that the xlsx reader rejects does not stop
    [refresh]: the error is caught and posted to the webview as an error
    report, no data message follows, and the preview and the disk stay
    as they were (apart from the requested table). *)
Theorem refresh_reports_unreadable_workbook (rt : Runtime) (dataTable : string)
    (st : State) (bytes : string) (decoder : Decoder) (type : WorkBookType) :
  (decoder = BinarySpreadsheet ∧ type = BinaryWorkBook)
  ∨ (decoder = TextSpreadsheet ∧ type = FileWorkBook) →
  decoderFor (_fileExtension (this st)) = Some decoder →
  files st !! dataFilePathOf rt (this st) = Some bytes →
  xlsx_read rt type bytes = None →
  ∃ st',
    refresh rt dataTable st = (Normal tt, st')
    ∧ posted st' = posted st ++ [ErrorReport (ParseError "xlsx.readFile")]
    ∧ this st' = this (requestedTable dataTable st)
    ∧ files st' = files st.
Proof.
  intros Hkind Hdecoder Hfile Hread. rewrite refresh_run.
  destruct (requestedTable_fields dataTable st)
    as (_ & _ & Hext & _ & _ & _ & _ & Hfiles & Hposted & _).
  pose proof (requestedTable_file rt dataTable st) as Hsame. rewrite Hfile in Hsame.
  rewrite <- Hext in Hdecoder.
  unfold bind at 1. cbn [getThis]. unfold bind at 1. unfold tryCatch.
  rewrite (getFileData_spreadsheet rt _ bytes decoder type Hkind Hdecoder Hsame), Hread.
  eexists. split; [reflexivity|]. cbn. rewrite Hfiles, Hposted. done.
Qed.

Lemma refresh_reports_unreadable_workbook_witness :
  ∃ st',
    refresh Sample.runtime "" Scenario.brokenWorkbook = (Normal tt, st')
    ∧ posted st' = [ErrorReport (ParseError "xlsx.readFile")].
Proof.
  destruct (refresh_reports_unreadable_workbook Sample.runtime "" Scenario.brokenWorkbook
              "not a workbook" BinarySpreadsheet BinaryWorkBook)
    as (st' & Hrun & Hposted & _).
  - left. done.
  - vm_compute. reflexivity.
  - vm_compute. reflexivity.
  - vm_compute. reflexivity.
  - exists st'. split; [exact Hrun|]. rewrite Hposted. reflexivity.
Defined.

(** X10.  With a table selected, [getExcelData] converts the sheet of
    that name, not the first one; a name that the workbook does not have
    gives no rows and no error.  The selection is kept, and with more than
    one sheet the rows go to a companion file named after the table (for
    a table name without [$], which a replacement text treats
    differently). *)
Theorem getExcelData_requested_table (rt : Runtime) (workbook : WorkBook) (st : State)
    (firstSheet : string) (rest : list string) :
  SheetNames workbook = firstSheet :: rest →
  (0 < String.length (_dataTable (this st)))%nat →
  (getExcelData rt workbook st).1
  = Normal (sheet_to_json (Sheets workbook !! _dataTable (this st)))
  ∧ (Sheets workbook !! _dataTable (this st) = None →
     (getExcelData rt workbook st).1 = Normal [])
  ∧ _dataTable (this (getExcelData rt workbook st).2) = _dataTable (this st)
  ∧ (rest ≠ [] →
     "$"%char ∉ list_ascii_of_string (_dataTable (this st)) →
     _tableList (this (getExcelData rt workbook st).2) = firstSheet :: rest
     ∧ files (getExcelData rt workbook st).2
       = companionWritten rt
           (Js.replace (jsonCompanion (this st)) ".json"
              ("-" ++ _dataTable (this st) ++ ".json")%string)
           (VArray (sheet_to_json (Sheets workbook !! _dataTable (this st))))
           (files st)).
Proof.
  intros Hnames Htable. apply Nat.ltb_lt in Htable.
  rewrite (getExcelData_selected rt workbook st firstSheet rest Hnames).
  unfold selectedSheet, sheetCompanion. rewrite Htable. cbn [fst snd].
  split_and!; [done| |done|].
  - by intros ->.
  - intros Hrest _. destruct rest as [|second rest]; [done|]. done.
Qed.

Lemma getExcelData_requested_table_witness :
  (getExcelData Sample.runtime Sample.ledger Scenario.ledgerQ2).1
  = Normal [VObject [("amount", VNumber 20)]; VObject [("amount", VNumber 30)]]
  ∧ (getExcelData Sample.runtime Sample.ledger Scenario.ledgerQ9).1 = Normal []
  ∧ is_Some (files (getExcelData Sample.runtime Sample.ledger Scenario.ledgerQ2).2
               !! "/data/ledger-Q2.json").
Proof.
  destruct (getExcelData_requested_table Sample.runtime Sample.ledger Scenario.ledgerQ2
              "Q1" ["Q2"]) as (Hrows & _ & _ & Hfiles); [reflexivity|cbn; lia|].
  destruct (getExcelData_requested_table Sample.runtime Sample.ledger Scenario.ledgerQ9
              "Q1" ["Q2"]) as (_ & Hnone & _); [reflexivity|cbn; lia|].
  destruct Hfiles as [_ Hfiles]; [done| |].
  { vm_compute. intros Hin.
    repeat (apply elem_of_cons in Hin as [Hin|Hin]; [discriminate|]).
    by apply elem_of_nil in Hin. }
  split_and!.
  - rewrite Hrows. reflexivity.
  - apply Hnone. reflexivity.
  - rewrite Hfiles. vm_compute. eauto.
Defined.

(** X11.  For a spreadsheet that the reader accepts, [refresh] posts the
    rows of the selected sheet: the sheet asked for in this call, else the
    one selected before, else the first.  The message names that selection
    and lists the sheets when there is more than one.  When the sheet has
    no rows, or does not exist, nothing is posted. *)
Theorem refresh_posts_selected_sheet (rt : Runtime) (dataTable : string) (st : State)
    (bytes : string) (decoder : Decoder) (type : WorkBookType) (workbook : WorkBook)
    (firstSheet : string) (rest : list string) :
  (decoder = BinarySpreadsheet ∧ type = BinaryWorkBook)
  ∨ (decoder = TextSpreadsheet ∧ type = FileWorkBook) →
  decoderFor (_fileExtension (this st)) = Some decoder →
  files st !! dataFilePathOf rt (this st) = Some bytes →
  xlsx_read rt type bytes = Some workbook →
  SheetNames workbook = firstSheet :: rest →
  let self := this (requestedTable dataTable st) in
  let tableList :=
    if (1 <? List.length (firstSheet :: rest))%nat then firstSheet :: rest
    else _tableList (this st) in
  let dataRows := sheet_to_json (Sheets workbook !! selectedSheet self firstSheet) in
  ∃ st',
    refresh rt dataTable st = (Normal tt, st')
    ∧ this st' = set_tableList tableList self
    ∧ posted st'
      = posted st ++
          match dataRows with
          | [] => []
          | _ => [refreshMessage (set_tableList tableList self) (DataRows dataRows)]
          end.
Proof.
  intros Hkind Hdecoder Hfile Hread Hnames. cbv zeta. rewrite refresh_run.
  destruct (requestedTable_fields dataTable st)
    as (_ & _ & Hext & _ & _ & Hlist & _ & Hfiles & Hposted & _).
  pose proof (requestedTable_file rt dataTable st) as Hsame. rewrite Hfile in Hsame.
  rewrite <- Hext in Hdecoder.
  unfold bind at 1. cbn [getThis]. unfold bind at 1. unfold tryCatch.
  rewrite (getFileData_spreadsheet rt _ bytes decoder type Hkind Hdecoder Hsame), Hread.
  unfold bind at 1.
  rewrite (getExcelData_selected rt workbook _ firstSheet rest Hnames).
  cbn [ret]. rewrite Hlist.
  destruct (sheet_to_json _) as [|row rows] eqn:Hrows.
  - eexists. split; [reflexivity|]. cbn. rewrite app_nil_r. done.
  - eexists. split; [reflexivity|]. cbn. rewrite Hposted. done.
Qed.

Lemma refresh_posts_selected_sheet_witness :
  ∃ st',
    refresh Sample.runtime "" Scenario.ledgerQ2 = (Normal tt, st')
    ∧ posted st'
      = [refreshMessage
           (set_tableList ["Q1"; "Q2"] (this Scenario.ledgerQ2))
           (DataRows [VObject [("amount", VNumber 20)]; VObject [("amount", VNumber 30)]])].
Proof.
  destruct (refresh_posts_selected_sheet Sample.runtime "" Scenario.ledgerQ2
              Sample.ledgerBytes BinarySpreadsheet BinaryWorkBook Sample.ledger
              "Q1" ["Q2"]) as (st' & Hrun & _ & Hposted).
  - left. done.
  - vm_compute. reflexivity.
  - vm_compute. reflexivity.
  - vm_compute. reflexivity.
  - reflexivity.
  - exists st'. split; [exact Hrun|]. rewrite Hposted. reflexivity.
Defined.

(** ** Arrow tables *)











Section AssignFold.
Context {B : Type} (step : list (string * value) → B → list (string * value)).
Context (k : B → string) (v : B → value).
Hypothesis step_assigns : ∀ acc x, step acc x = assignProperty (k x) (v x) acc.





End AssignFold.






(** Field names that are array indices come first in a row, in ascending
    order, the other names follow as they were first assigned; a name
    used twice keeps its place and takes the later cell; [__proto__]
    gives no property. *)
Example arrowRow_key_order :
  field_name <$> table_fields Scenario.mixedKeys
  = ["b"; "10"; "__proto__"; "9"; "a"; "b"; "07"]
  ∧ arrowRow Scenario.mixedKeys 0
    = VObject [("9", VNumber 3); ("10", VNumber 1); ("b", VNumber 5);
               ("a", VNumber 4); ("07", VNumber 6)]
  ∧ arrayIndex <$> ["0"; "07"; "10"; "4294967294"; "4294967295"; "-1"; "1.5"; ""]
    = [Some 0%Z; None; Some 10%Z; Some 4294967294%Z; None; None; None; None].
Proof. vm_compute. split_and!; reflexivity. Qed.




(** ** The display type of an Arrow field *)

Lemma index_char_absent (c : ascii) (s : string) :
  c ∉ list_ascii_of_string s → String.index 0 (String c "") s = None.
Proof.
  induction s as [|a s IH]; intros Hnot; simpl; [done|].
  simpl in Hnot. apply not_elem_of_cons in Hnot as [Hne Hnot].
  rewrite (IH Hnot). by destruct (ascii_dec c a).
Qed.

Lemma index_char_first (c : ascii) (s rest : string) :
  c ∉ list_ascii_of_string s →
  String.index 0 (String c "") (s ++ String c rest) = Some (String.length s).
Proof.
  induction s as [|a s IH]; intros Hnot; string_app.
  - destruct (ascii_dec c c); [|done]. by destruct rest.
  - simpl in Hnot. apply not_elem_of_cons in Hnot as [Hne Hnot].
    rewrite (IH Hnot). by destruct (ascii_dec c a).
Qed.

(** X14.  The display type name of an Arrow field is its type name cut
    before the first [<]: a type without [<] is taken whole, the
    parameters of [base<params>] are dropped, and a type that starts
    with [<] is taken whole, as the test is [typesIndex > 0]. *)
Theorem arrowFieldType_drops_parameters (name base params : string) :
  "<"%char ∉ list_ascii_of_string base →
  arrowFieldType {| field_name := name; field_type := base |} = base
  ∧ (base ≠ "" →
     arrowFieldType {| field_name := name; field_type := base ++ "<" ++ params |} = base)
  ∧ arrowFieldType {| field_name := name; field_type := "<" ++ params |}
    = ("<" ++ params)%string.
Proof.
  intros Hbase. unfold arrowFieldType, Js.indexOf, Js.substring0. cbn [field_type].
  split_and!.
  - by rewrite index_char_absent.
  - intros Hnonempty. change ("<" ++ params)%string with (String "<" params).
    rewrite index_char_first by done.
    destruct base as [|a base]; [done|]. cbn [String.length].
    destruct (Z.ltb_spec 0 (Z.of_nat (S (String.length base)))) as [_|?]; [|lia].
    rewrite Nat2Z.id. apply (substring_app_prefix (String a base)).
  - change ("<" ++ params)%string with (String "<" params).
    simpl. by destruct params.
Qed.

Lemma arrowFieldType_drops_parameters_witness :
  arrowFieldType {| field_name := "at"; field_type := "Timestamp<MILLISECOND>" |}
  = "Timestamp".
Proof.
  destruct (arrowFieldType_drops_parameters "at" "Timestamp" "MILLISECOND") as (_ & Hcut & _).
  - vm_compute. intros Hin. repeat (apply elem_of_cons in Hin as [Hin|Hin]; [discriminate|]).
    by apply elem_of_nil in Hin.
  - apply Hcut. discriminate.
Defined.



(** ** Loading a view configuration *)

(** X17.  [loadConfig] changes the view configuration or the selected
    table only when the first selected file was read, parsed and its
    [dataFileName] occurs in the path of the open document; then both
    are the loaded ones.  A dismissed dialog, an empty selection, an
    unreadable or unparsable file and a mismatch leave both as they
    were, and so do the files selected after the first. *)
Theorem loadConfig_changes_view_only_on_match (rt : Runtime)
    (configFiles : option (list Uri)) (st : State) :
  _config (this (loadConfig rt configFiles st).2) ≠ _config (this st)
  ∨ _dataTable (this (loadConfig rt configFiles st).2) ≠ _dataTable (this st) →
  ∃ configFile others text viewConfig,
    configFiles = Some (configFile :: others)
    ∧ files st !! fsPath configFile = Some text
    ∧ JSON_parse rt text = Some viewConfig
    ∧ (0 ≤ Js.indexOf (fsPath (_uri (this st))) (toText (dataFileName viewConfig)))%Z
    ∧ _config (this (loadConfig rt configFiles st).2) = config viewConfig
    ∧ _dataTable (this (loadConfig rt configFiles st).2)
      = default "" (dataTable viewConfig).
Proof.
  intros Hchanged.
  destruct configFiles as [[|configFile others]|];
    [cbn in Hchanged; by destruct Hchanged| |cbn in Hchanged; by destruct Hchanged].
  destruct (files st !! fsPath configFile) as [text|] eqn:Hfile.
  2:{ exfalso. revert Hchanged. unfold loadConfig, bind, readFileSync. rewrite Hfile.
      cbn. intros [?|?]; done. }
  assert (Hread : readFileSync (fsPath configFile) st = (Normal text, st)).
  { unfold readFileSync. by rewrite Hfile. }
  destruct (JSON_parse rt text) as [viewConfig|] eqn:Hparse.
  2:{ exfalso. revert Hchanged. unfold loadConfig, bind. rewrite Hread, Hparse.
      cbn. intros [?|?]; done. }
  destruct (0 <=? Js.indexOf (fsPath (_uri (this st))) (toText (dataFileName viewConfig)))%Z
    eqn:Hmatch.
  2:{ exfalso. revert Hchanged. unfold loadConfig, bind. rewrite Hread, Hparse.
      cbn [getThis]. rewrite Hmatch. cbn. intros [?|?]; done. }
  exists configFile, others, text, viewConfig.
  split_and!; [done|done|done|by apply Z.leb_le| |].
  - set (st2 := withThis (set_dataTable (default "" (dataTable viewConfig)))
                  (withThis (set_config (config viewConfig)) st)).
    replace (loadConfig rt (Some (configFile :: others)) st)
      with (refresh rt (_dataTable (this st2)) st2).
    + apply (refresh_current_table rt st2).
    + unfold loadConfig, bind. rewrite Hread, Hparse. cbn [getThis].
      rewrite Hmatch. subst st2. by destruct (dataTable viewConfig).
  - set (st2 := withThis (set_dataTable (default "" (dataTable viewConfig)))
                  (withThis (set_config (config viewConfig)) st)).
    replace (loadConfig rt (Some (configFile :: others)) st)
      with (refresh rt (_dataTable (this st2)) st2).
    + apply (refresh_current_table rt st2).
    + unfold loadConfig, bind. rewrite Hread, Hparse. cbn [getThis].
      rewrite Hmatch. subst st2. by destruct (dataTable viewConfig).
Qed.

Lemma loadConfig_changes_view_only_on_match_witness :
  ∃ viewConfig,
    JSON_parse Sample.runtime Sample.salesConfigText = Some viewConfig
    ∧ _config (this (loadConfig Sample.runtime (Some [Sample.fileUri "/data/sales.config"])
                       (Sample.opened "/data/sales.csv")).2)
      = config viewConfig.
Proof.
  destruct (loadConfig_changes_view_only_on_match Sample.runtime
              (Some [Sample.fileUri "/data/sales.config"]) (Sample.opened "/data/sales.csv"))
    as (configFile & others & text & viewConfig & Hfiles & Hfile & Hparse & _ & Hconfig & _).
  - left. vm_compute. discriminate.
  - exists viewConfig. split; [|exact Hconfig].
    injection Hfiles as <- _. rewrite <- Hparse. f_equal.
    revert Hfile. vm_compute. congruence.
Defined.

Lemma indexOf_empty (s : string) : Js.indexOf s "" = 0%Z.
Proof. unfold Js.indexOf. by destruct s. Qed.

(** X18.  A configuration whose [dataFileName] is the empty string
    matches every document, since the empty text occurs in every path:
    its [config] and [dataTable] are adopted and no mismatch is
    reported, whatever file is open. *)
Theorem loadConfig_empty_name_matches_any_file (rt : Runtime) (configFile : Uri)
    (others : list Uri) (text : string) (viewConfig : ViewConfig) (st : State) :
  files st !! fsPath configFile = Some text →
  JSON_parse rt text = Some viewConfig →
  dataFileName viewConfig = Some "" →
  loadConfig rt (Some (configFile :: others)) st
  = refresh rt (default "" (dataTable viewConfig))
      (withThis (set_dataTable (default "" (dataTable viewConfig)))
         (withThis (set_config (config viewConfig)) st))
  ∧ _config (this (loadConfig rt (Some (configFile :: others)) st).2) = config viewConfig
  ∧ _dataTable (this (loadConfig rt (Some (configFile :: others)) st).2)
    = default "" (dataTable viewConfig).
Proof.
  intros Hfile Hparse Hname.
  set (st2 := withThis (set_dataTable (default "" (dataTable viewConfig)))
                (withThis (set_config (config viewConfig)) st)).
  assert (Hrun : loadConfig rt (Some (configFile :: others)) st
                 = refresh rt (_dataTable (this st2)) st2).
  { unfold loadConfig, bind at 1. unfold readFileSync. rewrite Hfile, Hparse.
    unfold bind at 1. cbn [getThis]. rewrite Hname. cbn [toText]. rewrite indexOf_empty.
    cbn [Z.leb Z.compare]. unfold bind. cbn [assignThis getThis]. subst st2.
    by destruct (dataTable viewConfig). }
  split; [exact Hrun|]. rewrite Hrun. apply (refresh_current_table rt st2).
Qed.

Lemma loadConfig_empty_name_matches_any_file_witness :
  _fileName (this Scenario.ledgerBlankConfig) = "ledger.xlsx"
  ∧ _config (this (loadConfig Scenario.runtime (Some [Sample.fileUri "/data/blank.config"])
                     Scenario.ledgerBlankConfig).2)
    = VObject [("plugin", VString "chart")]
  ∧ _dataTable (this (loadConfig Scenario.runtime (Some [Sample.fileUri "/data/blank.config"])
                        Scenario.ledgerBlankConfig).2)
    = "Q2".
Proof.
  split; [reflexivity|].
  apply (loadConfig_empty_name_matches_any_file Scenario.runtime
           (Sample.fileUri "/data/blank.config") [] Scenario.blankConfigText
           Scenario.blankConfig Scenario.ledgerBlankConfig).
  - vm_compute. reflexivity.
  - vm_compute. reflexivity.
  - reflexivity.
Defined.

(** ** Saving data from the view *)

Lemma endsWith_app (s t : string) : endsWith (s ++ t) t = true.
Proof.
  unfold endsWith. rewrite string_length_app.
  replace (String.length s + String.length t - String.length t)%nat
    with (String.length s + 0)%nat by lia.
  rewrite substring_app_skip, substring_whole, String.eqb_refl, andb_true_r.
  apply Nat.leb_le. lia.
Qed.

Lemma saveDataPath_ends_with_type (self : DataPreview) (fileType : string) :
  endsWith (saveDataPath self fileType) fileType = true.
Proof. unfold saveDataPath. rewrite <- string_app_assoc. apply endsWith_app. Qed.

(** X19.  Whether [saveData] writes JSON text is decided by the file
    type that the webview asks for, not by the file chosen in the dialog:
    for the types [.json] and [.config] the chosen file, whatever its
    name, receives [JSON.stringify] of the data; no other file changes,
    nothing is posted and the preview stays as it is.  A dismissed
    dialog changes nothing. *)
Theorem saveData_json_by_requested_type (rt : Runtime) (coerced : value → option string)
    (fileType : string) (fileData : value) (dataFileUri : Uri) (st : State) :
  fileType = ".json" ∨ fileType = ".config" →
  fileData ≠ VUndefined →
  saveData rt coerced fileType fileData (SaveChosen dataFileUri) st
  = (Normal tt, withFiles <[fsPath dataFileUri := JSON_stringify rt fileData]> st)
  ∧ saveData rt coerced fileType fileData SaveDismissed st = (Normal tt, st).
Proof.
  intros Htype Hdata. split; [|reflexivity].
  unfold saveData, bind. cbn [getThis].
  replace (endsWith (saveDataPath (this st) fileType) ".config"
           || endsWith (saveDataPath (this st) fileType) ".json") with true.
  - by destruct fileData.
  - symmetry. apply orb_true_iff.
    destruct Htype as [->| ->]; [right|left]; apply saveDataPath_ends_with_type.
Qed.

Lemma saveData_json_by_requested_type_witness :
  files (saveData Sample.runtime (fun _ => None) ".json" (VArray [])
           (SaveChosen (Sample.fileUri "/data/export.txt"))
           (Sample.opened "/data/sales.csv")).2 !! "/data/export.txt"
  = Some "[]".
Proof.
  destruct (saveData_json_by_requested_type Sample.runtime (fun _ => None) ".json"
              (VArray []) (Sample.fileUri "/data/export.txt")
              (Sample.opened "/data/sales.csv")) as [Hsaved _].
  - left. reflexivity.
  - discriminate.
  - rewrite Hsaved. vm_compute. reflexivity.
Defined.

Lemma substring_suffix (s : string) (k m : nat) :
  (k + m = String.length s)%nat → ∃ p, s = (p ++ String.substring k m s)%string.
Proof.
  revert k. induction s as [|a s IH]; intros k Hlength.
  - exists "". simpl in Hlength. by destruct k, m.
  - destruct k as [|k].
    + exists "". simpl in Hlength. subst m. string_app.
      exact (eq_sym (substring_whole (String a s))).
    + destruct (IH k) as [p Hp]; [simpl in Hlength; lia|].
      exists (String a p). string_app. by f_equal.
Qed.

Lemma string_snoc_inj (s t : string) (c d : ascii) :
  (s ++ String c "")%string = (t ++ String d "")%string → c = d.
Proof.
  revert t. induction s as [|a s IH]; intros [|b t]; string_app; intros Heq.
  - by injection Heq.
  - injection Heq as _ Heq. by destruct t.
  - injection Heq as _ Heq. by destruct s.
  - injection Heq as _ Heq. by apply (IH t).
Qed.

Lemma endsWith_last (s u : string) (c d : ascii) :
  endsWith (s ++ String c "") (u ++ String d "") = true → c = d.
Proof.
  unfold endsWith. intros Hends. apply andb_true_iff in Hends as [Hle Heq].
  apply Nat.leb_le in Hle. apply String.eqb_eq in Heq.
  destruct (substring_suffix (s ++ String c "")
              (String.length (s ++ String c "") - String.length (u ++ String d ""))
              (String.length (u ++ String d ""))) as [p Hp]; [lia|].
  rewrite Heq, <- string_app_assoc in Hp. by apply string_snoc_inj in Hp.
Qed.

(** X20.  For a file type that ends neither in [g] nor in [n], such as
    [.csv], the proposed path ends neither in [.config] nor in [.json],
    and [saveData] writes text data as it is: the chosen file holds
    exactly the text, also when its own name ends in [.json]. *)
Theorem saveData_text_written_verbatim (rt : Runtime) (coerced : value → option string)
    (typeStem : string) (c : ascii) (text : string) (dataFileUri : Uri) (st : State) :
  c ≠ "g"%char →
  c ≠ "n"%char →
  saveData rt coerced (typeStem ++ String c "") (VString text) (SaveChosen dataFileUri) st
  = (Normal tt, withFiles <[fsPath dataFileUri := text]> st).
Proof.
  intros Hconfig Hjson. unfold saveData, bind. cbn [getThis].
  replace (endsWith (saveDataPath (this st) (typeStem ++ String c "")) ".config") with false.
  - replace (endsWith (saveDataPath (this st) (typeStem ++ String c "")) ".json") with false;
      [done|].
    symmetry. apply not_true_is_false. unfold saveDataPath.
    rewrite <- !string_app_assoc. intros Hends.
    by apply (endsWith_last _ ".jso" c "n") in Hends.
  - symmetry. apply not_true_is_false. unfold saveDataPath.
    rewrite <- !string_app_assoc. intros Hends.
    by apply (endsWith_last _ ".confi" c "g") in Hends.
Qed.

Lemma saveData_text_written_verbatim_witness :
  saveDataPath (this Scenario.ledgerQ2) ".csv" = "/data/ledger-Q2.csv"
  ∧ files (saveData Sample.runtime (fun _ => None) ".csv" (VString "amount")
             (SaveChosen (Sample.fileUri "/data/export.json")) Scenario.ledgerQ2).2
      !! "/data/export.json"
    = Some "amount".
Proof.
  split; [vm_compute; reflexivity|].
  assert (Hsaved := saveData_text_written_verbatim Sample.runtime (fun _ => None) ".cs" "v"
                      "amount" (Sample.fileUri "/data/export.json") Scenario.ledgerQ2).
  change (".cs" ++ "v")%string with ".csv" in Hsaved.
  rewrite Hsaved.
  - vm_compute. reflexivity.
  - discriminate.
  - discriminate.
Defined.

(** ** What a refresh posts *)

Section silent.
Context (rt : Runtime).

Lemma silent_ret {A} (a : A) : silent (ret a).
Proof. by intros st. Qed.

Lemma silent_throw {A} (e : Error) : silent (@throw A e).
Proof. by intros st. Qed.

Lemma silent_bind {A B} (m : M A) (k : A → M B) :
  silent m → (∀ a, silent (k a)) → silent (bind m k).
Proof.
  intros Hm Hk st. unfold bind. specialize (Hm st).
  destruct (m st) as [[a|e] st1]; cbn in *; [|done].
  by rewrite (Hk a st1).
Qed.

Lemma silent_getThis : silent getThis.
Proof. by intros st. Qed.

Lemma silent_assignThis (f : DataPreview → DataPreview) : silent (assignThis f).
Proof. by intros st. Qed.

Lemma silent_existsSync (filePath : string) : silent (existsSync filePath).
Proof. by intros st. Qed.

Lemma silent_readFileSync (filePath : string) : silent (readFileSync filePath).
Proof. intros st. unfold readFileSync. by destruct (files st !! filePath). Qed.

Lemma silent_showErrorMessage (message : string) : silent (showErrorMessage message).
Proof. by intros st. Qed.

Lemma silent_showInformationMessage (message : string) :
  silent (showInformationMessage message).
Proof. by intros st. Qed.

Lemma silent_createFileDecoder (dataFilePath : string) :
  silent (createFileDecoder dataFilePath).
Proof. by intros st. Qed.

Lemma silent_createJsonFile (jsonFilePath : string) (jsonData : value) :
  silent (createJsonFile rt jsonFilePath jsonData).
Proof. intros st. by rewrite createJsonFile_run. Qed.

Lemma silent_writeFileSucceeds (filePath content : string) :
  silent (writeFileSucceeds filePath content).
Proof. by intros st. Qed.

End silent.

Create HintDb silence.
#[export] Hint Resolve silent_ret silent_throw silent_getThis silent_assignThis
  silent_existsSync silent_readFileSync silent_showErrorMessage
  silent_showInformationMessage silent_createFileDecoder silent_createJsonFile
  silent_writeFileSucceeds : silence.

Ltac stays_silent :=
  repeat first
    [ solve [auto with silence]
    | apply silent_bind; [|intros ?]
    | match goal with
      | |- silent (match ?x with _ => _ end) => destruct x
      | |- silent (if ?b then _ else _) => destruct b
      end ].

Lemma silent_getFileData (rt : Runtime) (filePath : string) :
  silent (getFileData rt filePath).
Proof.
  unfold getFileData, getBinaryExcelData, getTextExcelData, readWorkBook,
    getExcelData, getArrowData, getAvroData.
  stays_silent.
Qed.

Lemma loadData_messages (data : Data) (st : State) :
  ∃ extra,
    posted (loadData data st).2 = posted st ++ extra
    ∧ (List.length extra ≤ 1)%nat
    ∧ Forall (carriesView (this st)) extra.
Proof.
  assert (Hnone : ∃ extra, posted st = posted st ++ extra
                    ∧ (List.length extra ≤ 1)%nat
                    ∧ Forall (carriesView (this st)) extra).
  { exists []. rewrite app_nil_r. split_and!; [done|simpl; lia|constructor]. }
  unfold loadData. destruct data as [| |text|rows|rows]; cbn [dataLength]; try exact Hnone.
  all: match goal with |- context [(?n <=? 0)%nat] => destruct (n <=? 0)%nat end;
    try exact Hnone.
  all: eexists [_]; split_and!; [reflexivity|simpl; lia|].
  all: repeat constructor.
Qed.

Lemma refresh_messages (rt : Runtime) (dataTable : string) (st : State) :
  ∃ extra,
    posted (refresh rt dataTable st).2 = posted st ++ extra
    ∧ (List.length extra ≤ 1)%nat
    ∧ Forall (carriesView (this (requestedTable dataTable st))) extra.
Proof.
  rewrite refresh_run.
  destruct (requestedTable_fields dataTable st) as (_ & _ & _ & _ & _ & _ & _ & _ & Hposted & _).
  rewrite <- Hposted. generalize (requestedTable dataTable st). clear st Hposted.
  intros st. unfold bind at 1. cbn [getThis]. unfold bind at 1. unfold tryCatch.
  pose proof (silent_getFileData rt (_fileName (this st)) st) as Hsilent.
  destruct (keepsView_getFileData rt (_fileName (this st)) st) as [Hconfig Htable].
  destruct (getFileData rt (_fileName (this st)) st) as [[data|e] st1]; cbn [snd] in *.
  - destruct (loadData_messages data st1) as (extra & Hextra & Hlength & Hcarries).
    exists extra. split_and!; [by rewrite Hextra, Hsilent|done|].
    eapply Forall_impl; [exact Hcarries|].
    intros [refreshed|error]; cbn; [|done]. rewrite Hconfig, Htable. done.
  - exists [ErrorReport e]. split_and!; [|simpl; lia|repeat constructor].
    cbn. by rewrite Hsilent.
Qed.

(** X21.  Whatever the file and its format, one [refresh] posts at most
    one message to the webview, after those posted before; when it is a
    data message it carries the view configuration in force and the
    table selected by the call (the one asked for, or the one selected
    before when none is asked for). *)
Theorem refresh_posts_at_most_one_message (rt : Runtime) (dataTable : string) (st : State) :
  ∃ extra,
    posted (refresh rt dataTable st).2 = posted st ++ extra
    ∧ (List.length extra ≤ 1)%nat
    ∧ ∀ refreshed, RefreshCommand refreshed ∈ extra →
        msg_config refreshed = _config (this st)
        ∧ msg_table refreshed
          = (if (0 <? String.length dataTable)%nat then dataTable
             else _dataTable (this st)).
Proof.
  destruct (refresh_messages rt dataTable st) as (extra & Hextra & Hlength & Hcarries).
  exists extra. split_and!; [done|done|].
  intros refreshed Hin. rewrite Forall_forall in Hcarries.
  specialize (Hcarries _ Hin). cbn in Hcarries.
  destruct (requestedTable_fields dataTable st) as (_ & _ & _ & Hc & _ & _ & Ht & _).
  rewrite <- Hc, <- Ht. exact Hcarries.
Qed.

(** ** The messages of the webview *)

(** X22.  A configuration sent by the webview is the one it gets back:
    after a [config] message the preview holds that configuration, and
    the data message of the next [refresh] message, if one is posted,
    carries it. *)
Theorem config_message_reaches_next_refresh (rt : Runtime)
    (coerced : value → option string) (saveAnswer : SaveDialogAnswer)
    (openAnswer : option (list Uri)) (config : value) (table : option string)
    (st : State) :
  let received :=
    (onDidReceiveMessage rt coerced saveAnswer openAnswer (ConfigUpdate config) st).2 in
  _config (this received) = config
  ∧ ∃ extra,
      posted (onDidReceiveMessage rt coerced saveAnswer openAnswer
                (RefreshRequest table) received).2
      = posted st ++ extra
      ∧ (List.length extra ≤ 1)%nat
      ∧ ∀ refreshed, RefreshCommand refreshed ∈ extra → msg_config refreshed = config.
Proof.
  cbn [onDidReceiveMessage assignThis snd]. split; [reflexivity|].
  destruct (refresh_messages rt (default "" table) (withThis (set_config config) st))
    as (extra & Hextra & Hlength & Hcarries).
  exists extra. split_and!; [exact Hextra|exact Hlength|].
  intros refreshed Hin. rewrite Forall_forall in Hcarries.
  destruct (Hcarries _ Hin) as [Hconfig _]. rewrite Hconfig.
  by destruct (requestedTable_fields (default "" table) (withThis (set_config config) st))
    as (_ & _ & _ & -> & _).
Qed.

(** X23.  Of the messages of the webview, only [config] and
    [loadConfig] can change the view configuration of the preview, and
    only [refresh] and [loadConfig] can post to the webview: [saveData],
    [undoConfig] and unknown commands do neither. *)
Theorem messages_that_change_the_view (rt : Runtime) (coerced : value → option string)
    (saveAnswer : SaveDialogAnswer) (openAnswer : option (list Uri))
    (message : WebviewMessage) (st : State) :
  (_config (this (onDidReceiveMessage rt coerced saveAnswer openAnswer message st).2)
   ≠ _config (this st) →
   (∃ config, message = ConfigUpdate config) ∨ message = LoadConfigRequest)
  ∧ (posted (onDidReceiveMessage rt coerced saveAnswer openAnswer message st).2
     ≠ posted st →
     (∃ table, message = RefreshRequest table) ∨ message = LoadConfigRequest).
Proof.
  assert (Hsave : ∀ fileType data,
            this (detached (saveData rt coerced fileType data saveAnswer) st).2 = this st
            ∧ posted (detached (saveData rt coerced fileType data saveAnswer) st).2
              = posted st).
  { intros fileType data. unfold detached, tryCatch, saveData, bind. cbn [getThis].
    destruct saveAnswer as [| |dataFileUri]; [done|done|].
    destruct (endsWith _ ".config" || endsWith _ ".json"); destruct data; cbn;
      try done; by destruct (coerced _). }
  split; intros Hchanged.
  - destruct message as [table|config|fileType data| |command]; cbn in Hchanged.
    + exfalso. apply Hchanged. rewrite refresh_run.
      destruct (keepsView_after_table rt (requestedTable (default "" table) st)) as [Hc _].
      rewrite Hc. by destruct (requestedTable_fields (default "" table) st)
        as (_ & _ & _ & -> & _).
    + left. by exists config.
    + exfalso. apply Hchanged. by destruct (Hsave fileType data) as [-> _].
    + by right.
    + done.
  - destruct message as [table|config|fileType data| |command]; cbn in Hchanged.
    + left. by exists table.
    + done.
    + exfalso. apply Hchanged. by destruct (Hsave fileType data) as [_ ->].
    + by right.
    + done.
Qed.

Lemma messages_that_change_the_view_witness :
  ∃ config,
    ConfigUpdate (VObject [("plugin", VString "grid")]) = ConfigUpdate config.
Proof.
  destruct (messages_that_change_the_view Sample.runtime (fun _ => None) SaveDismissed None
              (ConfigUpdate (VObject [("plugin", VString "grid")]))
              (Sample.opened "/data/sales.csv")) as [Hconfig _].
  destruct Hconfig as [Hupdate|Hload].
  - vm_compute. discriminate.
  - exact Hupdate.
  - discriminate Hload.
Defined.

(** ** A decode of the provider from request to end *)

Section ProviderDecodeRun.
Context (rt : Runtime) (index : nat).

Lemma providerOnData_step (data : value) (pv : Provider) (decode : ProviderDecode) :
  decodes pv !! index = Some decode →
  viewType pv = "avro.data.json" →
  let pv' := providerOnData rt index data pv in
  decodes pv' !! index
  = Some (decodeWith (decode_dataRows decode ++ [data]) (decode_dataSchema decode) decode)
  ∧ viewType pv' = viewType pv
  ∧ List.length (jsonDataObjects pv') = List.length (jsonDataObjects pv)
  ∧ promises pv' = promises pv
  ∧ providerFiles pv' = providerFiles pv
  ∧ jsonFileDataMap pv' = jsonFileDataMap pv
  ∧ fired pv' = fired pv ++ [decode_uri decode].
Proof.
  intros Hdecode Hview. unfold providerOnData. rewrite Hdecode, Hview. cbn.
  split_and!; try done.
  - apply list_lookup_insert_eq. by apply lookup_lt_Some in Hdecode.
  - by rewrite length_insert.
Qed.

Lemma providerEvents_data (records : list value) (pv : Provider) (decode : ProviderDecode) :
  decodes pv !! index = Some decode →
  viewType pv = "avro.data.json" →
  let pv' := providerEvents rt index (map OnData records) pv in
  decodes pv' !! index
  = Some (decodeWith (decode_dataRows decode ++ records) (decode_dataSchema decode) decode)
  ∧ viewType pv' = viewType pv
  ∧ List.length (jsonDataObjects pv') = List.length (jsonDataObjects pv)
  ∧ promises pv' = promises pv
  ∧ providerFiles pv' = providerFiles pv
  ∧ jsonFileDataMap pv' = jsonFileDataMap pv
  ∧ fired pv' = fired pv ++ replicate (List.length records) (decode_uri decode).
Proof.
  revert pv decode. induction records as [|record records IH]; intros pv decode Hdecode Hview.
  - cbn. rewrite !app_nil_r. split_and!; try done. by destruct decode.
  - cbn [map providerEvents foldl providerEvent].
    destruct (providerOnData_step record pv decode Hdecode Hview)
      as (Hd & Hv & Hl & Hp & Hf & Hm & Hfired).
    destruct (IH _ _ Hd (eq_trans Hv Hview)) as (Hd' & Hv' & Hl' & Hp' & Hf' & Hm' & Hfired').
    unfold providerEvents in *. cbn [decodeWith decode_dataRows decode_dataSchema
      decode_uri] in *.
    split_and!; try congruence.
    + rewrite Hd'. unfold decodeWith. cbn. by rewrite <- app_assoc.
    + rewrite Hfired', Hfired. cbn. by rewrite <- app_assoc.
Qed.

Lemma providerEvents_other_view (events : list AvroEvent) (pv : Provider) :
  viewType pv ≠ "avro.data.json" →
  Forall (fun event => match event with OnMetadata _ => False | _ => True end) events →
  providerEvents rt index events pv = pv.
Proof.
  intros Hview Hevents. induction Hevents as [|event events Hevent _ IH]; [done|].
  unfold providerEvents in *. cbn [foldl].
  replace (providerEvent rt index event pv) with pv; [exact IH|].
  apply String.eqb_neq in Hview.
  destruct event as [type|data|]; [done| |]; cbn; unfold providerOnData, providerOnEnd;
    destruct (decodes pv !! index); by rewrite ?Hview.
Qed.

Lemma providerOnMetadata_step (type : value) (pv : Provider) (decode : ProviderDecode) :
  decodes pv !! index = Some decode →
  promises pv !! decode_promise decode = Some None →
  let text := JSON_stringify rt type in
  let pv' := providerOnMetadata rt index type pv in
  decodes pv' !! index = Some (decodeWith (decode_dataRows decode) type decode)
  ∧ viewType pv' = viewType pv
  ∧ jsonDataObjects pv' = <[decode_jsonData decode := text]> (jsonDataObjects pv)
  ∧ promises pv' = <[decode_promise decode := Some text]> (promises pv)
  ∧ providerFiles pv'
    = <[Js.replace (decode_dataFilePath decode) ".avro" ".avro.schema.json" := text]>
        (providerFiles pv)
  ∧ jsonFileDataMap pv' = jsonFileDataMap pv
  ∧ fired pv' = fired pv ++ [decode_uri decode].
Proof.
  intros Hdecode Hpromise. unfold providerOnMetadata. rewrite Hdecode.
  unfold resolve. cbn -[Js.replace]. rewrite Hpromise.
  split_and!; try done.
  apply list_lookup_insert_eq. by apply lookup_lt_Some in Hdecode.
Qed.

Lemma providerOnEnd_step (pv : Provider) (decode : ProviderDecode) (resolved : string) :
  decodes pv !! index = Some decode →
  viewType pv = "avro.data.json" →
  promises pv !! decode_promise decode = Some (Some resolved) →
  let text := JSON_stringify rt (VArray (decode_dataRows decode)) in
  let pv' := providerOnEnd rt index pv in
  jsonDataObjects pv' = <[decode_jsonData decode := text]> (jsonDataObjects pv)
  ∧ promises pv' = promises pv
  ∧ providerFiles pv'
    = <[Js.replace (decode_dataFilePath decode) ".avro" ".avro.json" := text]>
        (providerFiles pv)
  ∧ jsonFileDataMap pv' = jsonFileDataMap pv
  ∧ fired pv' = fired pv.
Proof.
  intros Hdecode Hview Hpromise. unfold providerOnEnd. rewrite Hdecode, Hview.
  unfold resolve. cbn -[Js.replace]. rewrite Hpromise. done.
Qed.

End ProviderDecodeRun.

Lemma providerEvents_app (rt : Runtime) (index : nat) (first rest : list AvroEvent)
    (pv : Provider) :
  providerEvents rt index (first ++ rest) pv
  = providerEvents rt index rest (providerEvents rt index first pv).
Proof. unfold providerEvents. apply foldl_app. Qed.

(** X24.  A request of the provider for a path that is not cached, and
    the decode it starts, from the schema through the rows to the end.
    The promise is pending after the request and is settled by the
    schema event: it resolves with the JSON text of the schema in both
    views, as the later [resolve] of the end handler comes too late.
    The cache entry of the path ends with the JSON text of the rows in
    the data view and of the schema in the schema view; the change event
    fires once for the schema and, in the data view, once per row; the
    schema companion is written in both views, the data companion in the
    data view. *)
Theorem provider_decode_from_request (rt : Runtime) (uri : Uri) (pv : Provider)
    (type : value) (records : list value) :
  jsonFileDataMap pv !! Js.stripJsonSuffix (path uri) = None →
  let request := provideTextDocumentContent uri pv in
  let isData := String.eqb (viewType pv) "avro.data.json" in
  let schemaText := JSON_stringify rt type in
  let rowsText := JSON_stringify rt (VArray records) in
  let ended :=
    providerEvents rt (List.length (decodes pv)) (avroStream type records) request.2 in
  promises request.2 !! request.1 = Some None
  ∧ promises ended !! request.1 = Some (Some schemaText)
  ∧ (∃ cached,
       jsonFileDataMap ended !! Js.stripJsonSuffix (path uri) = Some cached
       ∧ jsonDataObjects ended !! cached = Some (if isData then rowsText else schemaText))
  ∧ fired ended
    = fired pv ++ replicate (if isData then S (List.length records) else 1) uri
  ∧ providerFiles ended
    = (if isData
       then <[Js.replace (uriString uri) ".avro" ".avro.json" := rowsText]>
       else fun disk => disk)
        (<[Js.replace (uriString uri) ".avro" ".avro.schema.json" := schemaText]>
           (providerFiles pv)).
Proof.
  intros Hcache. cbv zeta.
  set (decode := {| decode_uri := uri;
                    decode_dataFilePath := uriString uri;
                    decode_jsonData := List.length (jsonDataObjects pv);
                    decode_promise := List.length (promises pv);
                    decode_dataRows := [];
                    decode_dataSchema := VObject [] |}).
  set (requested := (provideTextDocumentContent uri pv).2).
  assert (Hpromise : (provideTextDocumentContent uri pv).1 = List.length (promises pv))
    by reflexivity.
  assert (Hrequested :
    decodes requested !! List.length (decodes pv) = Some decode
    ∧ viewType requested = viewType pv
    ∧ jsonDataObjects requested = jsonDataObjects pv ++ [""]
    ∧ promises requested = promises pv ++ [None]
    ∧ providerFiles requested = providerFiles pv
    ∧ jsonFileDataMap requested
      = <[Js.stripJsonSuffix (path uri) := List.length (jsonDataObjects pv)]>
          (jsonFileDataMap pv)
    ∧ fired requested = fired pv).
  { subst requested. unfold provideTextDocumentContent. rewrite Hcache. cbn.
    split_and!; try done. by rewrite lookup_app_r, Nat.sub_diag. }
  destruct Hrequested as (Hd & Hv & Ho & Hp & Hf & Hm & Hfired).
  rewrite Hpromise.
  assert (Hpending : promises requested !! List.length (promises pv) = Some None).
  { by rewrite Hp, lookup_app_r, Nat.sub_diag. }
  split; [exact Hpending|].
  unfold avroStream.
  change (OnMetadata type :: map OnData records ++ [OnEnd])
    with ([OnMetadata type] ++ (map OnData records ++ [OnEnd])).
  rewrite providerEvents_app.
  change (providerEvents rt (List.length (decodes pv)) [OnMetadata type] requested)
    with (providerOnMetadata rt (List.length (decodes pv)) type requested).
  destruct (providerOnMetadata_step rt _ type requested decode Hd Hpending)
    as (Hd1 & Hv1 & Ho1 & Hp1 & Hf1 & Hm1 & Hfired1).
  set (described := providerOnMetadata rt (List.length (decodes pv)) type requested) in *.
  cbn [decode decode_jsonData decode_promise decode_dataFilePath decode_uri
    decode_dataRows] in *.
  assert (Hobject : ∀ text,
            <[List.length (jsonDataObjects pv) := text]> (jsonDataObjects pv ++ [""])
              !! List.length (jsonDataObjects pv) = Some text).
  { intros text. apply list_lookup_insert_eq. rewrite length_app. cbn. lia. }
  assert (Hsettled : <[List.length (promises pv) := Some (JSON_stringify rt type)]>
                       (promises pv ++ [None]) !! List.length (promises pv)
                     = Some (Some (JSON_stringify rt type))).
  { apply list_lookup_insert_eq. rewrite length_app. cbn. lia. }
  destruct (String.eqb (viewType pv) "avro.data.json") eqn:Hview.
  - apply String.eqb_eq in Hview.
    rewrite providerEvents_app.
    destruct (providerEvents_data rt _ records described _ Hd1 (eq_trans Hv1 (eq_trans Hv Hview)))
      as (Hd2 & Hv2 & Hl2 & Hp2 & Hf2 & Hm2 & Hfired2).
    set (filled := providerEvents rt (List.length (decodes pv)) (map OnData records)
                     described) in *.
    change (providerEvents rt (List.length (decodes pv)) [OnEnd] filled)
      with (providerOnEnd rt (List.length (decodes pv)) filled).
    cbn [decodeWith decode_dataRows decode_uri app] in Hd2, Hfired2.
    destruct (providerOnEnd_step rt _ filled _ (JSON_stringify rt type) Hd2)
      as (Ho3 & Hp3 & Hf3 & Hm3 & Hfired3).
    { congruence. }
    { cbn. rewrite Hp2, Hp1, Hp. exact Hsettled. }
    cbn [decodeWith decode_dataRows decode_jsonData decode_dataFilePath] in *.
    split_and!.
    + rewrite Hp3, Hp2, Hp1, Hp. exact Hsettled.
    + exists (List.length (jsonDataObjects pv)). split.
      * rewrite Hm3, Hm2, Hm1, Hm. apply lookup_insert_eq.
      * rewrite Ho3. apply list_lookup_insert_eq.
        rewrite Hl2, Ho1, length_insert, Ho, length_app. cbn. lia.
    + rewrite Hfired3, Hfired2, Hfired1, Hfired. cbn. by rewrite <- app_assoc.
    + rewrite Hf3, Hf2, Hf1, Hf. done.
  - apply String.eqb_neq in Hview.
    rewrite providerEvents_other_view.
    + split_and!.
      * rewrite Hp1, Hp. exact Hsettled.
      * exists (List.length (jsonDataObjects pv)). split.
        -- rewrite Hm1, Hm. apply lookup_insert_eq.
        -- rewrite Ho1, Ho. apply Hobject.
      * by rewrite Hfired1, Hfired.
      * by rewrite Hf1, Hf.
    + congruence.
    + apply Forall_app. split; [|by repeat constructor].
      apply Forall_fmap. by apply Forall_true.
Qed.

Lemma provider_decode_from_request_witness :
  promises (providerEvents Sample.runtime 0
              (avroStream Sample.idSchema Sample.idRows)
              (provideTextDocumentContent Sample.eventsUri
                 (newProvider "avro.data.json" Sample.providerDisk)).2) !! 0%nat
  = Some (Some (Sample.stringify Sample.idSchema)).
Proof.
  destruct (provider_decode_from_request Sample.runtime Sample.eventsUri
              (newProvider "avro.data.json" Sample.providerDisk)
              Sample.idSchema Sample.idRows) as (_ & Hsettled & _).
  - vm_compute. reflexivity.
  - exact Hsettled.
Defined.

(** X25.  A new request for a path takes the cache entry away from the
    decoders started before: whatever event such a decoder emits after
    the request, the entry of the path still holds the empty content of
    the new request, so a request that follows is answered with the
    empty text until the new decoder has emitted. *)
Theorem superseded_decoder_leaves_cache_empty (rt : Runtime) (uri : Uri) (pv : Provider)
    (index : nat) (decode : ProviderDecode) (event : AvroEvent) :
  decodes pv !! index = Some decode →
  (decode_jsonData decode < List.length (jsonDataObjects pv))%nat →
  let requested := (provideTextDocumentContent uri pv).2 in
  ∃ cached,
    jsonFileDataMap (providerEvent rt index event requested)
      !! Js.stripJsonSuffix (path uri) = Some cached
    ∧ jsonDataObjects (providerEvent rt index event requested) !! cached = Some "".
Proof.
  intros Hdecode Hallocated. cbv zeta.
  set (requested := (provideTextDocumentContent uri pv).2).
  assert (Hrequested :
    decodes requested !! index = Some decode
    ∧ jsonDataObjects requested = jsonDataObjects pv ++ [""]
    ∧ jsonFileDataMap requested !! Js.stripJsonSuffix (path uri)
      = Some (List.length (jsonDataObjects pv))).
  { subst requested. unfold provideTextDocumentContent.
    destruct (jsonFileDataMap pv !! Js.stripJsonSuffix (path uri)); cbn;
      (split_and!; [by apply lookup_app_l_Some|done|apply lookup_insert_eq]). }
  destruct Hrequested as (Hd & Ho & Hm). clearbody requested.
  assert (Hkept : ∀ text,
            <[decode_jsonData decode := text]> (jsonDataObjects pv ++ [""])
              !! List.length (jsonDataObjects pv) = Some "").
  { intros text. rewrite list_lookup_insert_ne by lia.
    by rewrite lookup_app_r, Nat.sub_diag. }
  assert (Hsame : jsonDataObjects requested !! List.length (jsonDataObjects pv) = Some "").
  { by rewrite Ho, lookup_app_r, Nat.sub_diag. }
  exists (List.length (jsonDataObjects pv)).
  destruct event as [type|data|]; cbn [providerEvent];
    unfold providerOnMetadata, providerOnData, providerOnEnd; rewrite Hd;
    try destruct (String.eqb (viewType requested) "avro.data.json");
    cbn -[Js.replace]; rewrite ?Ho; auto.
  - by rewrite Ho in Hsame.
  - by rewrite Ho in Hsame.
Qed.

Lemma superseded_decoder_leaves_cache_empty_witness :
  ∃ cached,
    jsonFileDataMap
      (providerEvent Sample.runtime 0 (OnMetadata Sample.idSchema)
         (provideTextDocumentContent Sample.eventsUri Sample.firstRequest).2)
      !! "/data/events.avro" = Some cached
    ∧ jsonDataObjects
        (providerEvent Sample.runtime 0 (OnMetadata Sample.idSchema)
           (provideTextDocumentContent Sample.eventsUri Sample.firstRequest).2)
        !! cached = Some "".
Proof.
  destruct (decodes Sample.firstRequest !! 0%nat) as [decode|] eqn:Hdecode;
    [|vm_compute in Hdecode; discriminate].
  apply (superseded_decoder_leaves_cache_empty Sample.runtime Sample.eventsUri
           Sample.firstRequest 0 decode (OnMetadata Sample.idSchema) Hdecode).
  vm_compute in Hdecode. injection Hdecode as <-. vm_compute. lia.
Defined.
